(** * GramaSarathi: the two-stage eligibility rules of [utils.py]

    A shallow embedding of [validate_input], [filter_schemes] and
    [evaluate_step2], and the properties of the rule evaluation.

    Conventions of the embedding.
    - Scheme records come from [json.load]: they are JSON values ([json]),
      dictionaries being finite maps keyed by strings.
    - The submitted form is a dictionary from field names to [str] or [None]
      (the values of [request.form.get]); the step-2 answers are a dictionary
      from field names to [str].
    - Strings hold ASCII text: [Py.lower], [Py.title] and [Py.int] follow
      CPython on ASCII input and treat every other character as an uncased
      non-digit.
    - A Python exception is an explicit outcome ([Raise]); the scheme
      dictionaries live in a store, because [evaluate_step2] writes into them
      in place and [filter_schemes] hands out the very objects it was given. *)

From Stdlib Require Import ZArith Ascii String List.
From Stdlib Require Import Floats.SpecFloat.
From stdpp Require Import gmap strings list fin_maps pretty.

Set Warnings "-register-all".
Local Open Scope string_scope.
Local Open Scope Z_scope.

(** ** Python values *)

Inductive json :=
| JNull
| JBool (b : bool)
| JInt (z : Z)
| JFloat (f : spec_float)
| JStr (s : string)
| JList (l : list json)
| JDict (d : gmap string json).

Inductive exn := AttributeError | TypeError | KeyError | IndexError | ValueError.

Inductive result (A : Type) :=
| Ok (a : A)
| Raise (e : exn).
Arguments Ok {A} a.
Arguments Raise {A} e.

Definition rbind {A B} (r : result A) (k : A -> result B) : result B :=
  match r with
  | Ok a => k a
  | Raise e => Raise e
  end.

Declare Scope py_scope.
Delimit Scope py_scope with py.
Notation "x <- r ;; k" := (rbind r (fun x => k))
  (at level 100, r at next level, right associativity) : py_scope.
Local Open Scope py_scope.

(** ** Builtins on strings (ASCII) *)

Module Py.

Definition is_upper (c : ascii) : bool :=
  let n := nat_of_ascii c in (65 <=? n)%nat && (n <=? 90)%nat.

Definition is_lower (c : ascii) : bool :=
  let n := nat_of_ascii c in (97 <=? n)%nat && (n <=? 122)%nat.

Definition lower_char (c : ascii) : ascii :=
  if is_upper c then ascii_of_nat (nat_of_ascii c + 32) else c.

Definition upper_char (c : ascii) : ascii :=
  if is_lower c then ascii_of_nat (nat_of_ascii c - 32) else c.

Fixpoint map_chars (f : ascii -> ascii) (s : string) : string :=
  match s with
  | EmptyString => EmptyString
  | String c rest => String (f c) (map_chars f rest)
  end.

(** [s.lower()] *)
Definition lower (s : string) : string := map_chars lower_char s.

(** [s.replace(a, b)] for one-character [a] and [b] *)
Definition replace_char (a b : ascii) (s : string) : string :=
  map_chars (fun c => if Ascii.eqb c a then b else c) s.

(** [s.title()]: a cased character is upper-cased when it follows an
    uncased one (or starts the string) and lower-cased otherwise. *)
Fixpoint title_from (prev_cased : bool) (s : string) : string :=
  match s with
  | EmptyString => EmptyString
  | String c rest =>
      if is_upper c || is_lower c
      then String (if prev_cased then lower_char c else upper_char c)
                  (title_from true rest)
      else String c (title_from false rest)
  end.

Definition title (s : string) : string := title_from false s.

(** Whitespace skipped by [int()] around the literal: [Py_ISSPACE]. *)
Definition is_space (c : ascii) : bool :=
  let n := nat_of_ascii c in
  ((9 <=? n)%nat && (n <=? 13)%nat) || (n =? 32)%nat.

Definition digit_value (c : ascii) : option Z :=
  let n := nat_of_ascii c in
  if (48 <=? n)%nat && (n <=? 57)%nat then Some (Z.of_nat (n - 48)) else None.

Fixpoint lstrip (l : list ascii) : list ascii :=
  match l with
  | c :: rest => if is_space c then lstrip rest else l
  | [] => []
  end.

Definition strip (l : list ascii) : list ascii :=
  rev (lstrip (rev (lstrip l))).

(** [sys.get_int_max_str_digits()], the default of CPython 3.11 and later. *)
Definition int_max_str_digits : nat := 4300.

(** The digits of a base-10 literal: single underscores are allowed between
    digits only.  [prev] says whether the previous character was a digit;
    [acc] is the value and [n] the number of digits read so far. *)
Fixpoint digits_from (prev : bool) (acc : Z) (n : nat) (l : list ascii)
  : option (Z * nat) :=
  match l with
  | [] => if prev then Some (acc, n) else None
  | c :: rest =>
      match digit_value c with
      | Some d => digits_from true (10 * acc + d) (S n) rest
      | None =>
          if Ascii.eqb c "_" && prev then digits_from false acc n rest
          else None
      end
  end.

Definition unsigned_literal (l : list ascii) : option Z :=
  match digits_from false 0 0%nat l with
  | Some (v, n) => if (n <=? int_max_str_digits)%nat then Some v else None
  | None => None
  end.

(** [int(s)] for a [str]: [None] stands for [ValueError]. *)
Definition int (s : string) : option Z :=
  match strip (list_ascii_of_string s) with
  | "-"%char :: body => Z.opp <$> unsigned_literal body
  | "+"%char :: body => unsigned_literal body
  | body => unsigned_literal body
  end.

Definition is_digit (c : ascii) : bool :=
  match digit_value c with
  | Some _ => true
  | None => false
  end.

(** [s.isascii()] *)
Definition is_ascii (s : string) : bool :=
  forallb (fun c => (nat_of_ascii c <? 128)%nat) (list_ascii_of_string s).

(** [s.isdigit()]: at least one character, and digits only. *)
Definition isdigit (s : string) : bool :=
  negb (bool_decide (s = ""%string)) && forallb is_digit (list_ascii_of_string s).

End Py.

(** ** The submitted form *)

(** [data.get(key)]: a missing key reads as [None]. *)
Definition form_get (data : gmap string (option string)) (key : string)
  : option string :=
  default None (data !! key).

(** [data.get(key, "")] *)
Definition form_get_or_empty (data : gmap string (option string)) (key : string)
  : option string :=
  default (Some "") (data !! key).

(** [not v] for a form value *)
Definition form_not (v : option string) : bool :=
  match v with
  | None => true
  | Some s => bool_decide (s = "")
  end.

(** [int(v)] for a form value *)
Definition form_int (v : option string) : result Z :=
  match v with
  | None => Raise TypeError
  | Some s => match Py.int s with
              | Some n => Ok n
              | None => Raise ValueError
              end
  end.

(** [v.lower()] for a form value *)
Definition form_lower (v : option string) : result string :=
  match v with
  | None => Raise AttributeError
  | Some s => Ok (Py.lower s)
  end.

(** ** [validate_input] *)

(** What [validate_input] returns: [True], one of its literal messages, or
    the message built from an unexpected exception [e] (whose text is not
    modelled). *)
Inductive verdict :=
| VTrue
| VMsg (msg : string)
| VUnexpected (e : exn).

Definition required_fields : list string :=
  ["gender"; "caste"; "district"; "occupation"; "location"].

Definition missing_field_message (field : string) : string :=
  let display_field_name := Py.title (Py.replace_char "_" " " field) in
  "Missing required field: " ++ display_field_name ++ ".".

Fixpoint check_required (data : gmap string (option string)) (fields : list string)
  : verdict :=
  match fields with
  | [] => VTrue
  | field :: rest =>
      if form_not (form_get data field) then VMsg (missing_field_message field)
      else check_required data rest
  end.

(** The body of the outer [try]: an exception other than the [ValueError]
    of the two inner [try] blocks escapes to the outer handler. *)
Definition validate_body (data : gmap string (option string)) : result verdict :=
  let age_str := form_get data "age" in
  if form_not age_str then Ok (VMsg "Age is a required field.")
  else
    match form_int age_str with
    | Raise ValueError => Ok (VMsg "Invalid age value. Please enter a number.")
    | Raise e => Raise e
    | Ok age =>
        if negb ((0 <=? age) && (age <=? 150))
        then Ok (VMsg "Age must be between 0 and 150.")
        else
          let income_str := form_get data "income" in
          if form_not income_str then Ok (VMsg "Annual Income is a required field.")
          else
            match form_int income_str with
            | Raise ValueError =>
                Ok (VMsg "Invalid annual income value. Please select a valid range.")
            | Raise e => Raise e
            | Ok income =>
                if income <? 0 then Ok (VMsg "Annual Income cannot be negative.")
                else Ok (check_required data required_fields)
            end
    end.

Definition validate_input (data : gmap string (option string)) : verdict :=
  match validate_body data with
  | Ok v => v
  | Raise e => VUnexpected e
  end.

(** ** Operations on JSON values *)

(** [bool(v)] *)
Definition truthy (v : json) : bool :=
  match v with
  | JNull => false
  | JBool b => b
  | JInt z => negb (z =? 0)
  | JFloat (S754_zero _) => false
  | JFloat _ => true
  | JStr s => negb (bool_decide (s = ""))
  | JList l => negb (bool_decide (length l = 0%nat))
  | JDict d => negb (bool_decide (size d = 0%nat))
  end.

(** [o.get(key, dflt)]; [o.get(key)] is [dict_get o key JNull]. *)
Definition dict_get (o : json) (key : string) (dflt : json) : result json :=
  match o with
  | JDict d => Ok (default dflt (d !! key))
  | _ => Raise AttributeError
  end.

(** [o[i]] for a literal index [i] *)
Definition getitem_index (o : json) (i : nat) : result json :=
  match o with
  | JList l => match l !! i with
               | Some v => Ok v
               | None => Raise IndexError
               end
  | JStr s => match String.get i s with
              | Some c => Ok (JStr (String c EmptyString))
              | None => Raise IndexError
              end
  | JDict _ => Raise KeyError
  | _ => Raise TypeError
  end.

(** [o[key]] for a literal string [key] *)
Definition getitem_key (o : json) (key : string) : result json :=
  match o with
  | JDict d => match d !! key with
               | Some v => Ok v
               | None => Raise KeyError
               end
  | _ => Raise TypeError
  end.

(** Python compares an [int] with a [float] exactly; a float is
    [(-1)^s * m * 2^e], an infinity or NaN ([None]: unordered). *)
Definition compare_float_int (f : spec_float) (n : Z) : option comparison :=
  match f with
  | S754_zero _ => Some (0 ?= n)
  | S754_infinity false => Some Gt
  | S754_infinity true => Some Lt
  | S754_nan => None
  | S754_finite s m e =>
      let v := if s then Z.neg m else Z.pos m in
      if 0 <=? e then Some (v * 2 ^ e ?= n) else Some (v ?= n * 2 ^ (- e))
  end.

(** The order of [x] and the integer [n], for [x] an instance of [int]
    (which [bool] is) or [float]; other operands raise [TypeError]. *)
Definition compare_num_int (x : json) (n : Z) : result (option comparison) :=
  match x with
  | JBool b => Ok (Some (Z.b2z b ?= n))
  | JInt z => Ok (Some (z ?= n))
  | JFloat f => Ok (compare_float_int f n)
  | _ => Raise TypeError
  end.

(** [x <= n] *)
Definition num_le_int (x : json) (n : Z) : result bool :=
  c <- compare_num_int x n ;;
  Ok match c with Some Lt | Some Eq => true | _ => false end.

(** [n <= x] *)
Definition int_le_num (n : Z) (x : json) : result bool :=
  c <- compare_num_int x n ;;
  Ok match c with Some Gt | Some Eq => true | _ => false end.

(** [n > x] *)
Definition int_gt_num (n : Z) (x : json) : result bool :=
  c <- compare_num_int x n ;;
  Ok match c with Some Lt => true | _ => false end.

(** [o[0] <= n <= o[1]]: the chained comparison reads [o[1]] only when the
    first comparison holds. *)
Definition between (o : json) (n : Z) : result bool :=
  lo <- getitem_index o 0 ;;
  b <- num_le_int lo n ;;
  if b : bool then hi <- getitem_index o 1 ;; int_le_num n hi
  else Ok false.

Fixpoint chars (s : string) : list json :=
  match s with
  | EmptyString => []
  | String c rest => JStr (String c EmptyString) :: chars rest
  end.

(** The items a [for] clause draws from [v]: the elements of a list, the
    characters of a string, the keys of a dictionary (whose order plays no
    part below). *)
Definition iterate (v : json) : result (list json) :=
  match v with
  | JList l => Ok l
  | JStr s => Ok (chars s)
  | JDict d => Ok (JStr <$> (map_to_list d).*1)
  | _ => Raise TypeError
  end.

(** [g.lower()] *)
Definition str_lower (g : json) : result string :=
  match g with
  | JStr s => Ok (Py.lower s)
  | _ => Raise AttributeError
  end.

Fixpoint rmap {A B} (f : A -> result B) (l : list A) : result (list B) :=
  match l with
  | [] => Ok []
  | a :: rest => b <- f a ;; bs <- rmap f rest ;; Ok (b :: bs)
  end.

(** [[g.lower() for g in v]] *)
Definition lower_each (v : json) : result (list string) :=
  items <- iterate v ;; rmap str_lower items.

(** ** [filter_schemes]: the six checks *)

(** The user's values as [filter_schemes] converts them before its loop. *)
Record user := {
  age : Z;
  caste : string;
  gender : string;
  income : Z;
  occupation : string;
  location : string
}.

(** Each [..._excludes] is the condition of the [if] that sets
    [is_eligible = False] for its axis. *)

(** 1. Age range check *)
Definition age_excludes (u : user) (elig : json) : result bool :=
  age_range <- dict_get elig "age_range" JNull ;;
  if truthy age_range then b <- between age_range (age u) ;; Ok (negb b)
  else Ok false.

(** 2, 3, 5, 6. Gender, caste, occupation and location checks: the same
    test on the key [axis] with the sentinel ["all"] or ["any"]. *)
Definition set_excludes (axis sentinel value : string) (elig : json) : result bool :=
  raw <- dict_get elig axis (JList []) ;;
  scheme_values <- lower_each raw ;;
  Ok (negb (bool_decide (length scheme_values = 0%nat))
      && negb (bool_decide (sentinel ∈ scheme_values))
      && negb (bool_decide (value ∈ scheme_values))).

(** 4. Income check *)
Definition income_excludes (u : user) (elig : json) : result bool :=
  scheme_income_limit <- dict_get elig "income_limit" JNull ;;
  match scheme_income_limit with
  | JNull => Ok false
  | JBool _ | JInt _ | JFloat _ => int_gt_num (income u) scheme_income_limit
  | JList [_; _] => b <- between scheme_income_limit (income u) ;; Ok (negb b)
  | _ => Ok false
  end.

(** The body of the loop, up to [if is_eligible]. *)
Definition scheme_is_eligible (u : user) (scheme : json) : result bool :=
  elig <- dict_get scheme "eligibility" (JDict ∅) ;;
  let is_eligible := true in
  c <- age_excludes u elig ;;
  let is_eligible := if c : bool then false else is_eligible in
  c <- set_excludes "gender" "all" (gender u) elig ;;
  let is_eligible := if c : bool then false else is_eligible in
  c <- set_excludes "caste" "all" (caste u) elig ;;
  let is_eligible := if c : bool then false else is_eligible in
  c <- income_excludes u elig ;;
  let is_eligible := if c : bool then false else is_eligible in
  c <- set_excludes "occupation" "any" (occupation u) elig ;;
  let is_eligible := if c : bool then false else is_eligible in
  c <- set_excludes "location" "all" (location u) elig ;;
  let is_eligible := if c : bool then false else is_eligible in
  Ok is_eligible.

(** ** The store of scheme objects *)

(** A scheme list holds references to objects; the store gives the value
    of each. *)
Definition loc := nat.
Definition store := loc -> json.

(** A computation that reads and writes the store and may raise; what was
    written before an exception stays written. *)
Definition M (A : Type) := store -> result A * store.

Definition mret {A} (a : A) : M A := fun σ => (Ok a, σ).

Definition mbind {A B} (m : M A) (k : A -> M B) : M B :=
  fun σ => match m σ with
           | (Ok a, σ') => k a σ'
           | (Raise e, σ') => (Raise e, σ')
           end.

Definition lift {A} (r : result A) : M A := fun σ => (r, σ).

Definition deref (l : loc) : M json := fun σ => (Ok (σ l), σ).

(** [o[key] = v] for the object [o] at [l] *)
Definition setitem (l : loc) (key : string) (v : json) : M unit :=
  fun σ => match σ l with
           | JDict d => (Ok tt, fun l' => if decide (l' = l)
                                          then JDict (<[key := v]> d) else σ l')
           | _ => (Raise TypeError, σ)
           end.

Notation "x <~ m ;; k" := (mbind m (fun x => k))
  (at level 100, m at next level, right associativity) : py_scope.

(** ** [filter_schemes] *)

(** What [filter_schemes] returns: [{"error": validation_result}] or the
    list [filtered]. *)
Inductive filter_result :=
| ErrorDict (validation_result : verdict)
| Filtered (filtered : list loc).

(** The [for] loop; [filtered] is the list built so far. *)
Fixpoint filter_loop (u : user) (schemes : list loc) (filtered : list loc)
  : M (list loc) :=
  match schemes with
  | [] => mret filtered
  | l :: rest =>
      scheme <~ deref l ;;
      is_eligible <~ lift (scheme_is_eligible u scheme) ;;
      filter_loop u rest (if is_eligible : bool then filtered ++ [l] else filtered)
  end.

(** The conversions between validation and the loop. *)
Definition convert_user (user_input : gmap string (option string)) : result user :=
  age <- form_int (form_get user_input "age") ;;
  caste <- form_lower (form_get_or_empty user_input "caste") ;;
  gender <- form_lower (form_get_or_empty user_input "gender") ;;
  income <- form_int (form_get user_input "income") ;;
  occupation <- form_lower (form_get_or_empty user_input "occupation") ;;
  location <- form_lower (form_get_or_empty user_input "location") ;;
  Ok {| age := age; caste := caste; gender := gender; income := income;
        occupation := occupation; location := location |}.

Definition filter_schemes (schemes : list loc)
    (user_input : gmap string (option string)) : M filter_result :=
  match validate_input user_input with
  | VTrue =>
      u <~ lift (convert_user user_input) ;;
      filtered <~ filter_loop u schemes [] ;;
      mret (Filtered filtered)
  | validation_result => mret (ErrorDict validation_result)
  end.

(** ** [evaluate_step2] *)

Section Step2.

(** [str(v)], Python's rendering of a scheme identifier as the name of
    its radio buttons.  The results below hold whatever it returns;
    [str_of_id] after the section is its value on the identifiers a
    scheme file uses. *)
Variable py_str : json -> string.

(** The value assigned to [scheme["final_eligible"]]. *)
Definition step2_flag (answers : gmap string string) (scheme : json)
  : result bool :=
  step2 <- dict_get scheme "step2_question" JNull ;;
  asks <- (if truthy step2
           then question <- dict_get step2 "question" JNull ;; Ok (truthy question)
           else Ok false) ;;
  if asks : bool then
    id <- getitem_key scheme "id" ;;
    let question_id := py_str id in
    let user_ans := Py.lower (default "" (answers !! question_id)) in
    expected_answer <- dict_get step2 "expected_answer" (JStr "") ;;
    expected <- str_lower expected_answer ;;
    Ok (bool_decide (user_ans = expected))
  else Ok true.

Fixpoint step2_loop (schemes : list loc) (answers : gmap string string)
  : M unit :=
  match schemes with
  | [] => mret tt
  | l :: rest =>
      scheme <~ deref l ;;
      flag <~ lift (step2_flag answers scheme) ;;
      _ <~ setitem l "final_eligible" (JBool flag) ;;
      step2_loop rest answers
  end.

Definition evaluate_step2 (schemes : list loc) (answers : gmap string string)
  : M (list loc) :=
  _ <~ step2_loop schemes answers ;;
  mret schemes.

(** The rest of the section is the vocabulary in which the results on
    [evaluate_step2] are stated. *)

(** The step-2 question of a scheme record: its [step2_question], when
    that is a record holding a non-empty question text. *)
Definition step2_question_of (d : gmap string json) : option (gmap string json) :=
  match d !! "step2_question" with
  | Some (JDict q) =>
      if truthy (default JNull (q !! "question")) then Some q else None
  | _ => None
  end.

(** The expected answer of a question; a missing one is empty. *)
Definition expected_answer_of (q : gmap string json) : string :=
  match q !! "expected_answer" with
  | Some (JStr s) => s
  | _ => ""
  end.

(** The answer submitted for a scheme; a missing answer is empty. *)
Definition submitted_answer (answers : gmap string string)
    (d : gmap string json) : string :=
  default "" (answers !! py_str (default JNull (d !! "id"))).

Definition final_eligible_of (answers : gmap string string)
    (d : gmap string json) : bool :=
  match step2_question_of d with
  | None => true
  | Some q => bool_decide (Py.lower (submitted_answer answers d)
                           = Py.lower (expected_answer_of q))
  end.

(** A scheme object after step 2. *)
Definition flagged (answers : gmap string string) (v : json) : json :=
  match v with
  | JDict d => JDict (<["final_eligible" := JBool (final_eligible_of answers d)]> d)
  | _ => v
  end.

End Step2.

(** [str(v)] on integer, string, boolean and null identifiers; the [repr]
    of floats and containers is not modelled (rendered empty here). *)
Definition str_of_id (v : json) : string :=
  match v with
  | JInt z => pretty z
  | JStr s => s
  | JBool true => "True"
  | JBool false => "False"
  | JNull => "None"
  | _ => ""
  end.

(** ** [app.py]: the handlers around the rules *)

(** The submitted form [request.form] is read through [get] and [items]
    only, which see one value per key: it is a map from names to strings.
    Of a handler the model keeps the page it answers with and the scheme
    list it hands to the page; languages, translations and printing are
    left to the framework, and the scheme list is taken as loaded. *)
Inductive response :=
| FormPage (error_message : verdict)
| ResultsPage (schemes : list loc) (show_final : bool)
| RedirectIndex
| ErrorPage (status : nat).

(** The dictionary [user_input] of [results]: its eight keys are always
    present, a field that was not submitted holding [None]. *)
Definition collect_user_input (form : gmap string string)
  : gmap string (option string) :=
  <["age" := form !! "age"]>
  (<["gender" := form !! "gender"]>
  (<["caste" := form !! "caste"]>
  (<["district" := form !! "district"]>
  (<["income" := form !! "income"]>
  (<["occupation" := form !! "occupation"]>
  (<["hk_quota" := form !! "hk_quota"]>
  (<["location" := form !! "location"]> ∅))))))).

(** [results], from the loaded list [all_schemes] on: the matched schemes
    are stored in the session and shown; [ValueError] and [KeyError] are
    answered with status 400, any other exception with 500. *)
Definition results (all_schemes : list loc) (form : gmap string string)
  : store -> response * store :=
  fun σ =>
    let user_input := collect_user_input form in
    match filter_schemes all_schemes user_input σ with
    | (Ok (ErrorDict error), σ') => (FormPage error, σ')
    | (Ok (Filtered matched_schemes), σ') => (ResultsPage matched_schemes false, σ')
    | (Raise ValueError, σ') | (Raise KeyError, σ') => (ErrorPage 400, σ')
    | (Raise _, σ') => (ErrorPage 500, σ')
    end.

(** The language of the page that [results] answers with: the submitted
    [language], or ["en"] when none is submitted or [translations] has no
    entry for it.  [supported] stands for the keys of [translations], a
    table of [translation_dict.py]. *)
Definition page_language (supported : string -> bool) (form : gmap string string)
  : string :=
  let lang := default "en" (form !! "language") in
  if supported lang then lang else "en".

(** The dictionary [step2_answers] of [finalize]: the fields of the form
    whose name is a digit string. *)
Definition collect_step2_answers (form : gmap string string) : gmap string string :=
  filter (fun kv => Py.isdigit kv.1 = true) form.

(** [[s for s in schemes if s.get("final_eligible")]] *)
Fixpoint final_display (schemes : list loc) : M (list loc) :=
  match schemes with
  | [] => mret []
  | l :: rest =>
      s <~ deref l ;;
      flag <~ lift (dict_get s "final_eligible" JNull) ;;
      shown <~ final_display rest ;;
      mret (if truthy flag then l :: shown else shown)
  end.

Section Finalize.

Variable py_str : json -> string.

(** [finalize], from the list [matched_schemes] found in the session on
    (the empty list when the session has none). *)
Definition finalize (matched_schemes : list loc) (form : gmap string string)
  : store -> response * store :=
  fun σ =>
    if bool_decide (matched_schemes = []) then (RedirectIndex, σ)
    else
      let step2_answers := collect_step2_answers form in
      match (final_evaluated_schemes <~ evaluate_step2 py_str matched_schemes step2_answers ;;
             final_display final_evaluated_schemes) σ with
      | (Ok final_display_schemes, σ') => (ResultsPage final_display_schemes true, σ')
      | (Raise _, σ') => (ErrorPage 500, σ')
      end.

End Finalize.

(** ** The data model, as predicates on JSON values *)

(** [isinstance(v, (int, float))]: holds of booleans too. *)
Definition is_number (v : json) : bool :=
  match v with
  | JBool _ | JInt _ | JFloat _ => true
  | _ => false
  end.

Definition is_string (v : json) : bool :=
  match v with
  | JStr _ => true
  | _ => false
  end.

(** An optional list of strings. *)
Definition string_set_typed (v : option json) : bool :=
  match v with
  | None => true
  | Some (JList l) => forallb is_string l
  | Some _ => false
  end.

(** An optional pair of numbers. *)
Definition age_range_typed (v : option json) : bool :=
  match v with
  | None => true
  | Some (JList [lo; hi]) => is_number lo && is_number hi
  | Some _ => false
  end.

(** An optional number or list of numbers. *)
Definition income_limit_typed (v : option json) : bool :=
  match v with
  | None => true
  | Some (JList l) => forallb is_number l
  | Some v => is_number v
  end.

Definition criteria_typed (elig : gmap string json) : bool :=
  age_range_typed (elig !! "age_range")
  && string_set_typed (elig !! "gender")
  && string_set_typed (elig !! "caste")
  && income_limit_typed (elig !! "income_limit")
  && string_set_typed (elig !! "occupation")
  && string_set_typed (elig !! "location").

(** A scheme record whose criteria group, when present, is typed. *)
Definition scheme_typed (scheme : json) : bool :=
  match scheme with
  | JDict d => match d !! "eligibility" with
               | None => true
               | Some (JDict elig) => criteria_typed elig
               | Some _ => false
               end
  | _ => false
  end.

Definition optional_string (v : option json) : bool :=
  match v with
  | None => true
  | Some v => is_string v
  end.

(** A scheme record with an identifier whose [step2_question], when
    present, is null or a record of an optional question text and an
    optional expected answer string. *)
Definition step2_typed (scheme : json) : bool :=
  match scheme with
  | JDict d =>
      bool_decide (is_Some (d !! "id"))
      && match d !! "step2_question" with
         | None | Some JNull => true
         | Some (JDict q) =>
             optional_string (q !! "question")
             && optional_string (q !! "expected_answer")
         | Some _ => false
         end
  | _ => false
  end.

(** ** The vocabulary of the properties *)

(** A form value is missing when the field was not submitted or is empty. *)
Definition missing (v : option string) : Prop := v = None \/ v = Some "".


(** A submitted value that [int()] reads as [n]. *)
Definition numeric (v : option string) (n : Z) : Prop :=
  exists s, v = Some s /\ Py.int s = Some n.

Definition age_passes (data : gmap string (option string)) : Prop :=
  exists n, numeric (form_get data "age") n /\ 0 <= n <= 150.

Definition income_passes (data : gmap string (option string)) : Prop :=
  exists n, numeric (form_get data "income") n /\ 0 <= n.

Inductive axis := Age | Gender | Caste | Income | Occupation | Location.

Definition axes : list axis := [Age; Gender; Caste; Income; Occupation; Location].

(** The key of an axis in the criteria group. *)
Definition axis_key (a : axis) : string :=
  match a with
  | Age => "age_range"
  | Gender => "gender"
  | Caste => "caste"
  | Income => "income_limit"
  | Occupation => "occupation"
  | Location => "location"
  end.

(** The value that lifts the constraint of a set axis. *)
Definition axis_sentinel (a : axis) : option string :=
  match a with
  | Gender | Caste | Location => Some "all"
  | Occupation => Some "any"
  | Age | Income => None
  end.

(** The exclusion test that the loop body runs for an axis. *)
Definition axis_excludes (a : axis) (u : user) (elig : json) : result bool :=
  match a with
  | Age => age_excludes u elig
  | Gender => set_excludes "gender" "all" (gender u) elig
  | Caste => set_excludes "caste" "all" (caste u) elig
  | Income => income_excludes u elig
  | Occupation => set_excludes "occupation" "any" (occupation u) elig
  | Location => set_excludes "location" "all" (location u) elig
  end.

(** A check passes when its test runs and does not exclude. *)
Definition check_passes (r : result bool) : bool :=
  match r with
  | Ok false => true
  | _ => false
  end.

Definition all_checks_pass (u : user) (scheme : json) : bool :=
  match dict_get scheme "eligibility" (JDict ∅) with
  | Ok elig => forallb (fun a => check_passes (axis_excludes a u elig)) axes
  | Raise _ => false
  end.

(** An axis is unconstrained when its key is absent, holds the empty list,
    or (for a set axis) holds a list of strings one of which is the
    sentinel up to case. *)
Definition unconstrained (a : axis) (elig : gmap string json) : Prop :=
  elig !! axis_key a = None
  \/ elig !! axis_key a = Some (JList [])
  \/ exists sentinel l s,
       axis_sentinel a = Some sentinel
       /\ elig !! axis_key a = Some (JList l)
       /\ forallb is_string l = true
       /\ In (JStr s) l /\ Py.lower s = sentinel.

(** Two values of one object that differ at most in [final_eligible]. *)
Definition same_but_flag (v v' : json) : Prop :=
  v' = v
  \/ exists d d', v = JDict d /\ v' = JDict d'
       /\ forall key, key <> "final_eligible" -> d' !! key = d !! key.

(** The fields of the form that [filter_schemes] matches against the
    criteria, besides the two numbers. *)
Definition matched_fields : list string :=
  ["caste"; "gender"; "occupation"; "location"].

(** The fields of the form that the rules read at all. *)
Definition read_fields : list string :=
  ["age"; "income"; "gender"; "caste"; "district"; "occupation"; "location"].

(** Whether step 2 finds the object [v] finally eligible under [answers]. *)
Definition finally_eligible (py_str : json -> string)
    (answers : gmap string string) (v : json) : bool :=
  match v with
  | JDict d => final_eligible_of py_str answers d
  | _ => false
  end.

(** The six checks in the words of the specification.  A number is at
    most, at least or below an integer in Python's order of numbers. *)
Definition number_at_most (x : json) (n : Z) : bool :=
  match compare_num_int x n with
  | Ok (Some Lt) | Ok (Some Eq) => true
  | _ => false
  end.

Definition number_at_least (x : json) (n : Z) : bool :=
  match compare_num_int x n with
  | Ok (Some Gt) | Ok (Some Eq) => true
  | _ => false
  end.

Definition number_below (x : json) (n : Z) : bool :=
  match compare_num_int x n with
  | Ok (Some Lt) => true
  | _ => false
  end.

(** [lo <= n <= hi], bounds included. *)
Definition in_range (n : Z) (lo hi : json) : bool :=
  number_at_most lo n && number_at_least hi n.

(** Age: no range, or an age within the range. *)
Definition age_check (age : Z) (age_range : option json) : bool :=
  match age_range with
  | Some (JList [lo; hi]) => in_range age lo hi
  | _ => true
  end.

(** An accepted value that admits the user: the sentinel or the user's own
    value, the accepted value being read in lower case. *)
Definition accepts (sentinel value : string) (g : json) : bool :=
  match g with
  | JStr s => bool_decide (Py.lower s = sentinel) || bool_decide (Py.lower s = value)
  | _ => false
  end.

(** A set axis: no set, an empty set, or a set with a value that admits
    the user. *)
Definition set_check (sentinel value : string) (accepted : option json) : bool :=
  match accepted with
  | Some (JList (g :: l)) => existsb (accepts sentinel value) (g :: l)
  | _ => true
  end.

(** Income: no limit, an income that does not exceed a scalar limit, or an
    income within a two-element range; a list of another length is no
    limit. *)
Definition income_check (income : Z) (income_limit : option json) : bool :=
  match income_limit with
  | None => true
  | Some (JList [lo; hi]) => in_range income lo hi
  | Some (JList _) => true
  | Some limit => negb (number_below limit income)
  end.

(** The criteria group of a scheme record; none means no criteria. *)
Definition criteria_of (scheme : json) : gmap string json :=
  match scheme with
  | JDict d => match d !! "eligibility" with
               | Some (JDict elig) => elig
               | _ => ∅
               end
  | _ => ∅
  end.

(** The check of an axis on the user's converted values. *)
Definition axis_check (a : axis) (u : user) (elig : gmap string json) : bool :=
  match a with
  | Age => age_check (age u) (elig !! "age_range")
  | Gender => set_check "all" (gender u) (elig !! "gender")
  | Caste => set_check "all" (caste u) (elig !! "caste")
  | Income => income_check (income u) (elig !! "income_limit")
  | Occupation => set_check "any" (occupation u) (elig !! "occupation")
  | Location => set_check "all" (location u) (elig !! "location")
  end.

(** A scheme is eligible only if all six checks pass. *)
Definition meets_criteria (u : user) (scheme : json) : bool :=
  forallb (fun a => axis_check a u (criteria_of scheme)) axes.

(** ** Example records *)

Definition example_scheme : json :=
  JDict (<["id" := JInt 1]>
        (<["eligibility" :=
             JDict (<["age_range" := JList [JInt 18; JInt 60]]>
                   (<["gender" := JList [JStr "all"]]>
                   (<["income_limit" := JInt 50000]> ∅)))]> ∅)).

Definition example_form (age income : string) : gmap string (option string) :=
  <["age" := Some age]> (<["gender" := Some "female"]> (<["income" := Some income]>
  (<["caste" := Some "x"]> (<["district" := Some "y"]> (<["occupation" := Some "z"]>
  (<["location" := Some "w"]> ∅)))))).

Definition example_store : store := fun _ => example_scheme.

Definition example_user : user :=
  {| age := 30; caste := "x"; gender := "female"; income := 50000;
     occupation := "z"; location := "w" |}.

Definition example_question : gmap string json :=
  <["question" := JStr "Do you own farm land?"]>
  (<["expected_answer" := JStr "Yes"]> ∅).

Definition example_asking_fields : gmap string json :=
  <["id" := JInt 7]> (<["step2_question" := JDict example_question]> ∅).

(** A question without text. *)
Definition example_silent_question : gmap string json :=
  <["question" := JStr ""]> (<["expected_answer" := JStr "yes"]> ∅).

Definition example_silent_fields : gmap string json :=
  <["id" := JInt 1]> (<["step2_question" := JDict example_silent_question]> ∅).

(** Object 0 asks a question, every other object is [example_scheme]. *)
Definition example_step2_store : store :=
  fun l => match l with
           | O => JDict example_asking_fields
           | _ => example_scheme
           end.

Definition example_answers : gmap string string := {[ "7" := "YES" ]}.

(** The form of [example_form "30" "40000"] spelled otherwise, from
    another district. *)
Definition example_form_shouting : gmap string (option string) :=
  <["age" := Some " 30"]> (<["gender" := Some "FEMALE"]> (<["income" := Some "40_000"]>
  (<["caste" := Some "X"]> (<["district" := Some "elsewhere"]>
  (<["occupation" := Some "Z"]> (<["location" := Some "W"]> ∅)))))).

(** Object 1 has a null criteria group, every other object is
    [example_scheme]. *)
Definition example_broken_store : store :=
  fun l => match l with
           | 1%nat => JDict (<["eligibility" := JNull]> ∅)
           | _ => example_scheme
           end.

(** Object 1 asks a question but has no identifier, every other object is
    the asking scheme. *)
Definition example_step2_broken_store : store :=
  fun l => match l with
           | 1%nat => JDict (<["step2_question" := JDict example_question]> ∅)
           | _ => JDict example_asking_fields
           end.

(** A scheme whose identifier is a name. *)
Definition example_named_fields : gmap string json :=
  <["id" := JStr "pm-kisan"]> (<["step2_question" := JDict example_question]> ∅).

(** A submitted form, as [request.form] holds it. *)
Definition example_submission : gmap string string :=
  <["age" := "30"]> (<["gender" := "Female"]> (<["income" := "40000"]>
  (<["caste" := "x"]> (<["district" := "y"]> (<["occupation" := "z"]>
  (<["location" := "w"]> (<["language" := "en"]> ∅))))))).

(** Four schemes: object 0 is [example_scheme]; object 1 is for men only;
    object 2 names castes, an income range and any occupation; every other
    object is for the ages 40 to 60. *)
Definition example_mixed_store : store :=
  fun l => match l with
           | 0%nat => example_scheme
           | 1%nat => JDict (<["id" := JInt 2]>
                            (<["eligibility" :=
                                 JDict (<["gender" := JList [JStr "Male"]]> ∅)]> ∅))
           | 2%nat => JDict (<["id" := JInt 3]>
                            (<["eligibility" :=
                                 JDict (<["caste" := JList [JStr "SC"; JStr "X"]]>
                                       (<["income_limit" := JList [JInt 10000; JInt 45000]]>
                                       (<["occupation" := JList [JStr "Any"]]> ∅)))]> ∅))
           | _ => JDict (<["id" := JInt 4]>
                        (<["eligibility" :=
                             JDict (<["age_range" := JList [JInt 40; JInt 60]]> ∅)]> ∅))
           end.

(** * Properties *)

(** ** The builtins and the example of the specification *)

Example lower_mixed : Py.lower "OBC-a 2" = "obc-a 2".
Proof. reflexivity. Qed.

Example title_field : Py.title (Py.replace_char "_" " " "hk_quota") = "Hk Quota".
Proof. reflexivity. Qed.

Example int_plain : Py.int "30" = Some 30.
Proof. reflexivity. Qed.

Example int_spaces_sign : Py.int "  -007 " = Some (-7).
Proof. reflexivity. Qed.

Example int_underscore : Py.int "1_000" = Some 1000.
Proof. reflexivity. Qed.

Example int_bad : Py.int "12a" = None /\ Py.int "" = None /\ Py.int "1__0" = None
                  /\ Py.int "_1" = None /\ Py.int "1_" = None /\ Py.int "- 1" = None
                  /\ Py.int "4.5" = None /\ Py.int "+" = None.
Proof. repeat split; reflexivity. Qed.

Example missing_gender :
  missing_field_message "gender" = "Missing required field: Gender.".
Proof. reflexivity. Qed.

Example example_eligible :
  fst (filter_schemes [0%nat] (example_form "30" "40000") example_store)
  = Ok (Filtered [0%nat]).
Proof. vm_compute. reflexivity. Qed.

Example example_income_too_high :
  fst (filter_schemes [0%nat] (example_form "30" "60000") example_store)
  = Ok (Filtered []).
Proof. vm_compute. reflexivity. Qed.

Example example_too_young :
  validate_input (example_form "10" "40000") = VTrue
  /\ fst (filter_schemes [0%nat] (example_form "10" "40000") example_store)
     = Ok (Filtered []).
Proof. split; vm_compute; reflexivity. Qed.

Example example_asking_flag :
  step2_flag str_of_id example_answers (JDict example_asking_fields) = Ok true
  /\ step2_flag str_of_id {[ "7" := "no" ]} (JDict example_asking_fields) = Ok false
  /\ step2_flag str_of_id ∅ (JDict example_asking_fields) = Ok false.
Proof. repeat split; vm_compute; reflexivity. Qed.

Example example_silent_flag :
  step2_flag str_of_id {[ "1" := "no" ]} (JDict example_silent_fields) = Ok true.
Proof. vm_compute. reflexivity. Qed.

(** ** Validation *)

Lemma form_not_true (v : option string) : form_not v = true <-> missing v.
Proof.
  unfold missing. destruct v as [s|]; simpl.
  - rewrite bool_decide_eq_true. split; [intros ->; by right|].
    intros [H|H]; congruence.
  - split; [by left | done].
Qed.

Lemma form_not_false (v : option string) : form_not v = false <-> ~ missing v.
Proof.
  rewrite <- form_not_true. destruct (form_not v); split; congruence.
Qed.


Lemma numeric_form_int (v : option string) (n : Z) : numeric v n -> form_int v = Ok n.
Proof. intros (s & -> & Hs). simpl. by rewrite Hs. Qed.

Lemma form_int_numeric (v : option string) (n : Z) : form_int v = Ok n -> numeric v n.
Proof.
  destruct v as [s|]; simpl; [|done].
  destruct (Py.int s) as [m|] eqn:Hs; [|done].
  intros [= ->]. by exists s.
Qed.



Lemma check_required_true (data : gmap string (option string)) (fields : list string) :
  check_required data fields = VTrue ->
  Forall (fun f => ~ missing (form_get data f)) fields.
Proof.
  induction fields as [|f fields IH]; simpl; [by constructor|].
  destruct (form_not (form_get data f)) eqn:Hf; [done|].
  intros H. constructor; [by apply form_not_false | by apply IH].
Qed.




(** ** The six checks *)

Lemma is_number_compare (x : json) (n : Z) :
  is_number x = true -> exists c, compare_num_int x n = Ok c.
Proof. destruct x; simpl; try done; eauto. Qed.

Lemma between_pair (lo hi : json) (n : Z) :
  is_number lo = true -> is_number hi = true ->
  exists c1 c2,
    compare_num_int lo n = Ok c1 /\ compare_num_int hi n = Ok c2
    /\ between (JList [lo; hi]) n
       = Ok (match c1 with Some Lt | Some Eq => true | _ => false end
             && match c2 with Some Gt | Some Eq => true | _ => false end).
Proof.
  intros Hlo Hhi.
  destruct (is_number_compare lo n Hlo) as [c1 H1].
  destruct (is_number_compare hi n Hhi) as [c2 H2].
  exists c1, c2. repeat split; [done..|].
  unfold between, num_le_int, int_le_num. simpl. rewrite H1. simpl.
  destruct c1 as [[]|]; simpl; rewrite ?H2; done.
Qed.

Lemma rmap_str_lower_strings (l : list json) :
  forallb is_string l = true -> exists names, rmap str_lower l = Ok names.
Proof.
  induction l as [|g l IH]; simpl; [by eexists|].
  intros [Hg Hl]%andb_true_iff. destruct g; try done.
  destruct (IH Hl) as [names ->]. simpl. by eexists.
Qed.

Lemma age_excludes_typed (u : user) (elig : gmap string json) :
  age_range_typed (elig !! "age_range") = true ->
  exists b, age_excludes u (JDict elig) = Ok b.
Proof.
  unfold age_excludes. simpl.
  destruct (elig !! "age_range") as [v|]; simpl; [|by eexists].
  destruct v as [| | | | |[|lo [|hi [|]]]|]; try done.
  intros [Hlo Hhi]%andb_true_iff.
  destruct (between_pair lo hi (age u) Hlo Hhi) as (c1 & c2 & _ & _ & ->).
  simpl. by eexists.
Qed.

Lemma set_excludes_typed (key sentinel value : string) (elig : gmap string json) :
  string_set_typed (elig !! key) = true ->
  exists b, set_excludes key sentinel value (JDict elig) = Ok b.
Proof.
  unfold set_excludes, lower_each. simpl.
  destruct (elig !! key) as [v|]; simpl; [|by eexists].
  destruct v; try done. simpl. intros Hl.
  destruct (rmap_str_lower_strings _ Hl) as [names ->]. simpl. by eexists.
Qed.

Lemma income_excludes_typed (u : user) (elig : gmap string json) :
  income_limit_typed (elig !! "income_limit") = true ->
  exists b, income_excludes u (JDict elig) = Ok b.
Proof.
  unfold income_excludes. simpl.
  destruct (elig !! "income_limit") as [v|]; simpl; [|by eexists].
  destruct v as [| | | | |l|]; try done; try (by eexists).
  destruct l as [|lo [|hi [|]]]; try (by eexists).
  simpl. rewrite andb_true_r. intros [Hlo Hhi]%andb_true_iff.
  destruct (between_pair lo hi (income u) Hlo Hhi) as (c1 & c2 & _ & _ & ->).
  simpl. by eexists.
Qed.

Lemma axis_excludes_typed (a : axis) (u : user) (elig : gmap string json) :
  criteria_typed elig = true -> exists b, axis_excludes a u (JDict elig) = Ok b.
Proof.
  unfold criteria_typed. rewrite !andb_true_iff.
  intros [[[[[Hage Hgender] Hcaste] Hincome] Hocc] Hloc].
  destruct a; simpl;
    auto using age_excludes_typed, set_excludes_typed, income_excludes_typed.
Qed.

(** The criteria group that the loop body reads from a typed scheme. *)
Lemma scheme_typed_criteria (scheme : json) :
  scheme_typed scheme = true ->
  exists elig, dict_get scheme "eligibility" (JDict ∅) = Ok (JDict elig)
               /\ criteria_typed elig = true.
Proof.
  destruct scheme as [| | | | | |d]; try done. simpl.
  destruct (d !! "eligibility") as [v|]; simpl.
  - destruct v; try done. eauto.
  - intros _. exists ∅. split; [done|]. reflexivity.
Qed.

(** On a typed scheme the loop body raises nothing, and [is_eligible] stays
    true exactly when none of the six tests excludes. *)
Lemma scheme_is_eligible_typed (u : user) (scheme : json) :
  scheme_typed scheme = true ->
  scheme_is_eligible u scheme = Ok (all_checks_pass u scheme).
Proof.
  intros (elig & Hget & Htyped)%scheme_typed_criteria.
  unfold scheme_is_eligible, all_checks_pass. rewrite Hget. simpl.
  destruct (axis_excludes_typed Age u elig Htyped) as [b1 H1].
  destruct (axis_excludes_typed Gender u elig Htyped) as [b2 H2].
  destruct (axis_excludes_typed Caste u elig Htyped) as [b3 H3].
  destruct (axis_excludes_typed Income u elig Htyped) as [b4 H4].
  destruct (axis_excludes_typed Occupation u elig Htyped) as [b5 H5].
  destruct (axis_excludes_typed Location u elig Htyped) as [b6 H6].
  simpl in *. rewrite H1, H2, H3, H4, H5, H6. simpl.
  by destruct b1, b2, b3, b4, b5, b6.
Qed.

Lemma rmap_str_lower_names (l : list json) (names : list string) (n : string) :
  rmap str_lower l = Ok names ->
  In n names <-> exists s, In (JStr s) l /\ Py.lower s = n.
Proof.
  revert names. induction l as [|g l IH]; intros names; simpl.
  - intros [= <-]. simpl. split; [done | by intros (s & [] & _)].
  - destruct (str_lower g) as [m|] eqn:Hg; simpl; [|done].
    destruct (rmap str_lower l) as [ns|]; simpl; [|done].
    intros [= <-]. destruct g; try done. simpl in Hg. injection Hg as <-.
    simpl. rewrite (IH ns eq_refl). split.
    + intros [<-|(s0 & Hin & Hs)]; [exists s; by split; [left|] | exists s0; by split; [right|]].
    + intros (s0 & [[= ->]|Hin] & Hs); [by left | right; by exists s0].
Qed.

(** ** The checks of the code and the checks of the specification *)

Lemma existsb_accepts_names (sentinel value : string) (l : list json)
    (names : list string) :
  rmap str_lower l = Ok names ->
  existsb (accepts sentinel value) l
  = bool_decide (sentinel ∈ names) || bool_decide (value ∈ names).
Proof.
  intros Hnames. apply Bool.eq_iff_eq_true.
  rewrite existsb_exists, orb_true_iff, !bool_decide_eq_true, !list_elem_of_In.
  rewrite !(rmap_str_lower_names l names _ Hnames). split.
  - intros (g & Hg & Hacc). destruct g; try done. simpl in Hacc.
    apply orb_true_iff in Hacc as [H|H]; apply bool_decide_eq_true in H;
      [left | right]; by eexists.
  - intros [(s & Hs & Heq)|(s & Hs & Heq)]; exists (JStr s); (split; [done|]);
      simpl; apply orb_true_iff; [left | right]; by apply bool_decide_eq_true.
Qed.

Lemma age_excludes_check (u : user) (elig : gmap string json) :
  age_range_typed (elig !! "age_range") = true ->
  age_excludes u (JDict elig) = Ok (negb (age_check (age u) (elig !! "age_range"))).
Proof.
  unfold age_excludes. simpl.
  destruct (elig !! "age_range") as [v|]; simpl; [|done].
  destruct v as [| | | | |[|lo [|hi [|]]]|]; try done.
  intros [Hlo Hhi]%andb_true_iff.
  destruct (between_pair lo hi (age u) Hlo Hhi) as (c1 & c2 & H1 & H2 & ->).
  simpl. unfold in_range, number_at_most, number_at_least. by rewrite H1, H2.
Qed.

Lemma set_excludes_check (key sentinel value : string) (elig : gmap string json) :
  string_set_typed (elig !! key) = true ->
  set_excludes key sentinel value (JDict elig)
  = Ok (negb (set_check sentinel value (elig !! key))).
Proof.
  unfold set_excludes, lower_each. simpl.
  destruct (elig !! key) as [v|]; simpl; [|done].
  destruct v as [| | | | |l|]; try done. simpl. intros Hl.
  destruct (rmap_str_lower_strings _ Hl) as [names Hnames]. rewrite Hnames. simpl.
  destruct l as [|g l].
  - simpl in Hnames. by injection Hnames as <-.
  - pose proof (existsb_accepts_names sentinel value (g :: l) names Hnames) as Hex.
    simpl in Hex. rewrite Hex.
    assert (length names <> 0%nat) as Hlen.
    { simpl in Hnames. destruct (str_lower g); simpl in Hnames; [|done].
      destruct (rmap str_lower l); simpl in Hnames; [|done].
      by injection Hnames as <-. }
    rewrite (bool_decide_eq_false_2 _ Hlen). simpl.
    by rewrite negb_orb.
Qed.

Lemma income_excludes_check (u : user) (elig : gmap string json) :
  income_limit_typed (elig !! "income_limit") = true ->
  income_excludes u (JDict elig)
  = Ok (negb (income_check (income u) (elig !! "income_limit"))).
Proof.
  unfold income_excludes, income_check. simpl.
  destruct (elig !! "income_limit") as [v|]; simpl; [|done].
  destruct v as [|b|z|f|s|l|d]; try done.
  - intros _. unfold int_gt_num, number_below. simpl. by rewrite negb_involutive.
  - intros _. unfold int_gt_num, number_below. simpl. by rewrite negb_involutive.
  - intros _. unfold int_gt_num, number_below. simpl.
    rewrite negb_involutive. by destruct (compare_float_int f (income u)) as [[]|].
  - destruct l as [|lo [|hi [|]]]; try done.
    simpl. rewrite andb_true_r. intros [Hlo Hhi]%andb_true_iff.
    destruct (between_pair lo hi (income u) Hlo Hhi) as (c1 & c2 & H1 & H2 & ->).
    simpl. unfold in_range, number_at_most, number_at_least. by rewrite H1, H2.
Qed.

(** On typed criteria each test of the loop body excludes exactly when the
    check of its axis, in the words of the specification, fails. *)
Lemma axis_excludes_check (a : axis) (u : user) (elig : gmap string json) :
  criteria_typed elig = true ->
  axis_excludes a u (JDict elig) = Ok (negb (axis_check a u elig)).
Proof.
  unfold criteria_typed. rewrite !andb_true_iff.
  intros [[[[[Hage Hgender] Hcaste] Hincome] Hocc] Hloc].
  destruct a; simpl;
    auto using age_excludes_check, set_excludes_check, income_excludes_check.
Qed.

Lemma all_checks_pass_meets_criteria (u : user) (scheme : json) :
  scheme_typed scheme = true -> all_checks_pass u scheme = meets_criteria u scheme.
Proof.
  intros Htyped.
  destruct (scheme_typed_criteria scheme Htyped) as (elig & Hget & Helig).
  unfold all_checks_pass, meets_criteria. rewrite Hget.
  assert (criteria_of scheme = elig) as ->.
  { destruct scheme as [| | | | | |d]; try done. simpl in *.
    destruct (d !! "eligibility") as [v|]; simpl in *.
    - destruct v; try done. by injection Hget as <-.
    - by injection Hget as <-. }
  generalize axes. intros l. induction l as [|a l IH]; [done|].
  cbn [forallb]. rewrite IH, (axis_excludes_check a u elig Helig).
  by destruct (axis_check a u elig).
Qed.

(** ** [filter_schemes] after validation *)

Lemma validate_input_true (data : gmap string (option string)) :
  validate_input data = VTrue ->
  age_passes data /\ income_passes data
  /\ Forall (fun f => ~ missing (form_get data f)) required_fields.
Proof.
  unfold validate_input, validate_body, age_passes, income_passes.
  destruct (form_not (form_get data "age")); [done|].
  destruct (form_int (form_get data "age")) as [a|[]] eqn:Ha; try done.
  destruct (0 <=? a) eqn:Ha0; destruct (a <=? 150) eqn:Ha1; simpl; try done.
  destruct (form_not (form_get data "income")); [done|].
  destruct (form_int (form_get data "income")) as [i|[]] eqn:Hi; try done.
  destruct (i <? 0) eqn:Hi0; [done|].
  intros Hreq. split; [|split].
  - exists a. split; [by apply form_int_numeric | lia].
  - exists i. split; [by apply form_int_numeric | lia].
  - by apply check_required_true.
Qed.

(** On a submitted form the outer handler of [validate_input] is never
    entered. *)
Lemma validate_input_expected (data : gmap string (option string)) (e : exn) :
  validate_input data <> VUnexpected e.
Proof.
  unfold validate_input, validate_body.
  destruct (form_get data "age") as [a|]; simpl; [|done].
  case_bool_decide; [done|].
  destruct (Py.int a) as [n|]; [|done].
  destruct (negb _); [done|].
  destruct (form_get data "income") as [i|]; simpl; [|done].
  case_bool_decide; [done|].
  destruct (Py.int i) as [m|]; [|done].
  destruct (m <? 0); [done|].
  repeat (destruct (form_not _); [done|]). done.
Qed.

Lemma present_get_or_empty (data : gmap string (option string)) (field : string) :
  ~ missing (form_get data field) ->
  exists s, form_get_or_empty data field = Some s.
Proof.
  unfold missing, form_get, form_get_or_empty.
  destruct (data !! field) as [[s|]|]; simpl; intros H; [by eexists|..];
    exfalso; apply H; by left.
Qed.

(** A validated form converts without an exception. *)
Lemma convert_user_valid (data : gmap string (option string)) :
  validate_input data = VTrue -> exists u, convert_user data = Ok u.
Proof.
  intros ((a & Ha & _) & (i & Hi & _) & Hreq)%validate_input_true.
  unfold required_fields in Hreq.
  repeat match goal with
         | H : Forall _ (_ :: _) |- _ => apply Forall_cons in H as [?%present_get_or_empty H]
         end.
  destruct_and?. repeat match goal with H : ex _ |- _ => destruct H as [? H] end.
  unfold convert_user.
  rewrite (numeric_form_int _ _ Ha), (numeric_form_int _ _ Hi). simpl.
  repeat match goal with H : form_get_or_empty _ _ = _ |- _ => rewrite H; clear H end.
  simpl. by eexists.
Qed.

(** The loop touches no object, whatever the schemes are. *)
Lemma filter_loop_store (u : user) (schemes filtered : list loc) (σ : store) :
  snd (filter_loop u schemes filtered σ) = σ.
Proof.
  revert filtered. induction schemes as [|l rest IH]; intros filtered; [done|].
  simpl. unfold mbind, deref, lift.
  destruct (scheme_is_eligible u (σ l)) as [b|e]; [apply IH | done].
Qed.

(** On typed schemes the loop appends, in order, the schemes that pass. *)
Lemma filter_loop_typed (u : user) (schemes filtered : list loc) (σ : store) :
  Forall (fun l => scheme_typed (σ l) = true) schemes ->
  filter_loop u schemes filtered σ
  = (Ok (filtered ++ List.filter (fun l => all_checks_pass u (σ l)) schemes)%list, σ).
Proof.
  intros Htyped. revert filtered.
  induction Htyped as [|l rest Hl _ IH]; intros filtered; simpl.
  - by rewrite app_nil_r.
  - unfold mbind at 1. unfold deref. unfold mbind at 1. unfold lift at 1.
    rewrite (scheme_is_eligible_typed u _ Hl).
    rewrite IH. destruct (all_checks_pass u (σ l)); [|done].
    by rewrite <- app_assoc.
Qed.

Lemma present_get_or_empty_eq (data : gmap string (option string)) (field : string) :
  ~ missing (form_get data field) ->
  form_get_or_empty data field = form_get data field.
Proof.
  unfold missing, form_get, form_get_or_empty.
  destruct (data !! field) as [[s|]|]; simpl; intros H; [done|done|].
  exfalso. apply H. by left.
Qed.

(** The user record that a validated form converts to. *)
Lemma convert_user_reading (data : gmap string (option string)) :
  validate_input data = VTrue ->
  exists a i c g o lo,
    numeric (form_get data "age") a /\ numeric (form_get data "income") i
    /\ form_get data "caste" = Some c /\ form_get data "gender" = Some g
    /\ form_get data "occupation" = Some o /\ form_get data "location" = Some lo
    /\ convert_user data
       = Ok {| age := a; caste := Py.lower c; gender := Py.lower g; income := i;
               occupation := Py.lower o; location := Py.lower lo |}.
Proof.
  intros ((a & Ha & _) & (i & Hi & _) & Hreq)%validate_input_true.
  assert (forall k, In k required_fields ->
                    exists s, form_get data k = Some s
                              /\ form_get_or_empty data k = Some s) as Hpresent.
  { intros k Hk. pose proof (proj1 (List.Forall_forall _ _) Hreq k Hk) as Hm.
    simpl in Hm. rewrite (present_get_or_empty_eq _ _ Hm).
    destruct (form_get data k) as [s|]; [by exists s|].
    exfalso. apply Hm. by left. }
  destruct (Hpresent "caste") as (c & Hc & Hc'); [simpl; tauto|].
  destruct (Hpresent "gender") as (g & Hg & Hg'); [simpl; tauto|].
  destruct (Hpresent "occupation") as (o & Ho & Ho'); [simpl; tauto|].
  destruct (Hpresent "location") as (lo & Hlo & Hlo'); [simpl; tauto|].
  exists a, i, c, g, o, lo. repeat split; [done..|].
  unfold convert_user.
  rewrite (numeric_form_int _ _ Ha), (numeric_form_int _ _ Hi), Hc', Hg', Ho', Hlo'.
  reflexivity.
Qed.

Lemma filter_schemes_valid (schemes : list loc)
    (user_input : gmap string (option string)) (σ : store) :
  validate_input user_input = VTrue ->
  Forall (fun l => scheme_typed (σ l) = true) schemes ->
  exists u, convert_user user_input = Ok u
    /\ filter_schemes schemes user_input σ
       = (Ok (Filtered (List.filter (fun l => all_checks_pass u (σ l)) schemes)), σ).
Proof.
  intros Hvalid Htyped. destruct (convert_user_valid _ Hvalid) as [u Hu].
  exists u. split; [done|].
  unfold filter_schemes. rewrite Hvalid.
  unfold mbind at 1. unfold lift. rewrite Hu.
  unfold mbind. by rewrite (filter_loop_typed u schemes [] σ Htyped).
Qed.

Lemma filter_schemes_invalid (schemes : list loc)
    (user_input : gmap string (option string)) (σ : store) :
  validate_input user_input <> VTrue ->
  filter_schemes schemes user_input σ
  = (Ok (ErrorDict (validate_input user_input)), σ).
Proof.
  intros Hinvalid. unfold filter_schemes.
  by destruct (validate_input user_input).
Qed.

(** C1. For a user input that passes validation and typed schemes,
    [filter_schemes] returns exactly the schemes for which all six checks
    pass, in the order of the input list; a scheme for which any one check
    does not pass is not returned.  The checks are made on the submitted
    values: the integers that age and income read as, and the caste,
    gender, occupation and location in lower case.  They are the tests of
    the loop body, which on typed schemes are the checks of the
    specification: an age within the range, a set holding its sentinel or
    the user's value, an income not above the limit or within the range. *)
Theorem filter_schemes_all_checks (schemes : list loc)
    (user_input : gmap string (option string)) (σ : store) :
  validate_input user_input = VTrue ->
  Forall (fun l => scheme_typed (σ l) = true) schemes ->
  exists u filtered,
    convert_user user_input = Ok u
    /\ (numeric (form_get user_input "age") (age u)
        /\ numeric (form_get user_input "income") (income u)
        /\ Py.lower <$> form_get user_input "caste" = Some (caste u)
        /\ Py.lower <$> form_get user_input "gender" = Some (gender u)
        /\ Py.lower <$> form_get user_input "occupation" = Some (occupation u)
        /\ Py.lower <$> form_get user_input "location" = Some (location u))
    /\ filter_schemes schemes user_input σ = (Ok (Filtered filtered), σ)
    /\ filtered = List.filter (fun l => all_checks_pass u (σ l)) schemes
    /\ filtered = List.filter (fun l => meets_criteria u (σ l)) schemes
    /\ (forall l a elig,
          dict_get (σ l) "eligibility" (JDict ∅) = Ok elig ->
          check_passes (axis_excludes a u elig) = false ->
          ~ In l filtered)
    /\ (forall l a,
          axis_check a u (criteria_of (σ l)) = false -> ~ In l filtered).
Proof.
  intros Hvalid Htyped.
  destruct (filter_schemes_valid schemes user_input σ Hvalid Htyped) as (u & Hu & Hrun).
  destruct (convert_user_reading user_input Hvalid)
    as (a & i & c & g & o & lo & Ha & Hi & Hc & Hg & Ho & Hlo & Hu').
  rewrite Hu in Hu'. injection Hu' as ->.
  assert (List.filter (fun l => all_checks_pass
                                  {| age := a; caste := Py.lower c; gender := Py.lower g;
                                     income := i; occupation := Py.lower o;
                                     location := Py.lower lo |} (σ l)) schemes
          = List.filter (fun l => meets_criteria
                                    {| age := a; caste := Py.lower c; gender := Py.lower g;
                                       income := i; occupation := Py.lower o;
                                       location := Py.lower lo |} (σ l)) schemes)
    as Hsame.
  { clear Hrun. induction Htyped as [|l rest Hl _ IH]; [done|].
    simpl. by rewrite IH, (all_checks_pass_meets_criteria _ _ Hl). }
  eexists _, _. split; [exact Hu|]. split.
  { simpl. rewrite Hc, Hg, Ho, Hlo. by repeat split. }
  split; [exact Hrun|]. split; [done|]. split; [exact Hsame|]. split.
  - intros l ax elig Helig Hfails [_ Hpass]%filter_In.
    unfold all_checks_pass in Hpass. rewrite Helig in Hpass.
    rewrite forallb_forall in Hpass.
    assert (In ax axes) as Hax by (destruct ax; simpl; tauto).
    specialize (Hpass ax Hax). congruence.
  - intros l ax Hfails. rewrite Hsame. intros [_ Hpass]%filter_In.
    unfold meets_criteria in Hpass. rewrite forallb_forall in Hpass.
    assert (In ax axes) as Hax by (destruct ax; simpl; tauto).
    specialize (Hpass ax Hax). congruence.
Qed.

(** C6. When validation fails, [filter_schemes] returns the validator's
    message as an error result, whatever the schemes are, and leaves them
    alone; when validation succeeds it returns a list of schemes. *)
Theorem filter_schemes_propagates_error (schemes : list loc)
    (user_input : gmap string (option string)) (σ : store) :
  (validate_input user_input <> VTrue ->
     filter_schemes schemes user_input σ
     = (Ok (ErrorDict (validate_input user_input)), σ))
  /\ (validate_input user_input = VTrue ->
      Forall (fun l => scheme_typed (σ l) = true) schemes ->
      exists filtered,
        filter_schemes schemes user_input σ = (Ok (Filtered filtered), σ)).
Proof.
  split.
  - apply filter_schemes_invalid.
  - intros Hvalid Htyped.
    destruct (filter_schemes_valid schemes user_input σ Hvalid Htyped) as (u & _ & ->).
    by eexists.
Qed.

(** C9, amended.  On schemes that are records whose criteria group, when
    present, is a record, and whose criteria are typed (an age range that
    is a pair of numbers, string lists for gender, caste, occupation and
    location, an income limit that is a number or a list of numbers),
    [filter_schemes] returns an error result or a list of schemes for every
    user input, and raises nothing. *)
Theorem filter_schemes_total (schemes : list loc)
    (user_input : gmap string (option string)) (σ : store) :
  Forall (fun l => scheme_typed (σ l) = true) schemes ->
  exists r, filter_schemes schemes user_input σ = (Ok r, σ).
Proof.
  intros Htyped.
  assert (validate_input user_input = VTrue \/ validate_input user_input <> VTrue)
    as [Hvalid|Hinvalid] by (destruct (validate_input user_input); auto).
  - destruct (filter_schemes_valid schemes user_input σ Hvalid Htyped) as (u & _ & ->).
    by eexists.
  - rewrite (filter_schemes_invalid schemes user_input σ Hinvalid). by eexists.
Qed.

(** ** Unconstrained axes *)

Lemma rmap_str_lower_In (l : list json) (names : list string) (s : string) :
  rmap str_lower l = Ok names -> In (JStr s) l -> In (Py.lower s) names.
Proof.
  revert names. induction l as [|g l IH]; intros names; simpl; [done|].
  destruct (str_lower g) as [n|] eqn:Hg; simpl; [|done].
  destruct (rmap str_lower l) as [ns|]; simpl; [|done].
  intros [= <-] [->|Hin].
  - simpl in Hg. injection Hg as <-. by left.
  - right. by apply IH.
Qed.

Lemma set_excludes_absent (key sentinel value : string) (elig : gmap string json) :
  elig !! key = None -> set_excludes key sentinel value (JDict elig) = Ok false.
Proof. intros H. unfold set_excludes. simpl. by rewrite H. Qed.

Lemma set_excludes_empty (key sentinel value : string) (elig : gmap string json) :
  elig !! key = Some (JList []) ->
  set_excludes key sentinel value (JDict elig) = Ok false.
Proof. intros H. unfold set_excludes. simpl. by rewrite H. Qed.

Lemma set_excludes_sentinel (key sentinel value : string)
    (elig : gmap string json) (l : list json) (s : string) :
  elig !! key = Some (JList l) -> forallb is_string l = true ->
  In (JStr s) l -> Py.lower s = sentinel ->
  set_excludes key sentinel value (JDict elig) = Ok false.
Proof.
  intros Hkey Hl Hin Hs. unfold set_excludes, lower_each. simpl. rewrite Hkey. simpl.
  destruct (rmap_str_lower_strings l Hl) as [names Hnames]. rewrite Hnames. simpl.
  pose proof (rmap_str_lower_In l names s Hnames Hin) as Hmem.
  rewrite Hs in Hmem. apply list_elem_of_In in Hmem.
  rewrite (bool_decide_eq_true_2 _ Hmem). simpl.
  by rewrite andb_false_r.
Qed.

(** C4. A criteria axis that is absent, empty or holds its sentinel value
    passes for every user: its test never excludes. *)
Theorem unconstrained_axis_passes (a : axis) (u : user) (elig : gmap string json) :
  unconstrained a elig -> axis_excludes a u (JDict elig) = Ok false.
Proof.
  intros [Habsent|[Hempty|(sentinel & l & s & Hsent & Hkey & Hl & Hin & Hs)]].
  - destruct a; simpl in *; try (by apply set_excludes_absent).
    + unfold age_excludes. simpl. by rewrite Habsent.
    + unfold income_excludes. simpl. by rewrite Habsent.
  - destruct a; simpl in *; try (by apply set_excludes_empty).
    + unfold age_excludes. simpl. by rewrite Hempty.
    + unfold income_excludes. simpl. by rewrite Hempty.
  - destruct a; simpl in *; try done; injection Hsent as <-;
      by apply (set_excludes_sentinel _ _ _ _ l s).
Qed.

(** ** The income check *)

Example compare_half : compare_float_int (S754_finite false 100001 (-1)) 50000 = Some Gt
                       /\ compare_float_int (S754_finite false 100001 (-1)) 50001 = Some Lt
                       /\ compare_float_int (S754_finite true 3 1) (-6) = Some Eq.
Proof. repeat split; reflexivity. Qed.

(** C5. With a scalar limit, an income equal to the limit passes and an
    income above it is excluded; with a two-element range of numbers, the
    income passes exactly when it lies in the range, bounds included.  For
    integer limits the comparisons are those of [Z]. *)
Theorem income_limit_check (u : user) (elig : gmap string json) :
  (forall limit, elig !! "income_limit" = Some limit -> is_number limit = true ->
     (compare_num_int limit (income u) = Ok (Some Eq) ->
        income_excludes u (JDict elig) = Ok false)
     /\ (compare_num_int limit (income u) = Ok (Some Lt) ->
        income_excludes u (JDict elig) = Ok true))
  /\ (forall lo hi, elig !! "income_limit" = Some (JList [lo; hi]) ->
      is_number lo = true -> is_number hi = true ->
      exists b, income_excludes u (JDict elig) = Ok b
        /\ (b = false <->
            num_le_int lo (income u) = Ok true /\ int_le_num (income u) hi = Ok true))
  /\ (forall n, elig !! "income_limit" = Some (JInt n) ->
      income_excludes u (JDict elig) = Ok (bool_decide (n < income u)))
  /\ (forall lo hi, elig !! "income_limit" = Some (JList [JInt lo; JInt hi]) ->
      income_excludes u (JDict elig)
      = Ok (negb (bool_decide (lo <= income u <= hi)))).
Proof.
  repeat apply conj.
  - intros limit Hkey Hnum. unfold income_excludes, int_gt_num. simpl. rewrite Hkey. simpl.
    split; intros Hc; destruct limit; try done; simpl in *;
      injection Hc as Hc; by rewrite Hc.
  - intros lo hi Hkey Hlo Hhi. unfold income_excludes. simpl. rewrite Hkey. simpl.
    destruct (between_pair lo hi (income u) Hlo Hhi) as (c1 & c2 & H1 & H2 & ->).
    simpl. eexists. split; [done|].
    unfold num_le_int, int_le_num. rewrite H1, H2. simpl.
    destruct c1 as [[]|], c2 as [[]|]; simpl; split; try done;
      intros [? ?]; congruence.
  - intros n Hkey. unfold income_excludes, int_gt_num. simpl. rewrite Hkey. simpl.
    f_equal. destruct (n ?= income u) eqn:Hc; symmetry.
    + apply Z.compare_eq_iff in Hc. apply bool_decide_eq_false. lia.
    + apply Z.compare_lt_iff in Hc. by apply bool_decide_eq_true.
    + apply Z.compare_gt_iff in Hc. apply bool_decide_eq_false. lia.
  - intros lo hi Hkey. unfold income_excludes, between, num_le_int, int_le_num.
    simpl. rewrite Hkey. simpl.
    destruct (lo ?= income u) eqn:Hlo; simpl;
      destruct (hi ?= income u) eqn:Hhi; simpl; f_equal; symmetry;
      rewrite ?Z.compare_eq_iff, ?Z.compare_lt_iff, ?Z.compare_gt_iff in *;
      rewrite ?negb_true_iff, ?negb_false_iff;
      first [apply bool_decide_eq_true; lia | apply bool_decide_eq_false; lia].
Qed.

(** C10. An income limit that is present but is neither a number nor a
    two-element list imposes no constraint and raises nothing. *)
Theorem income_limit_other_shape (u : user) (elig : gmap string json) (v : json) :
  elig !! "income_limit" = Some v ->
  is_number v = false ->
  (forall a b, v <> JList [a; b]) ->
  income_excludes u (JDict elig) = Ok false.
Proof.
  intros Hkey Hnum Hshape. unfold income_excludes. simpl. rewrite Hkey. simpl.
  destruct v as [| | | | |l|]; try done.
  destruct l as [|a [|b [|]]]; try done.
  by destruct (Hshape a b).
Qed.

(** ** [evaluate_step2] *)

Lemma same_but_flag_trans (v1 v2 v3 : json) :
  same_but_flag v1 v2 -> same_but_flag v2 v3 -> same_but_flag v1 v3.
Proof.
  intros [->|(d1 & d2 & -> & -> & H12)] [->|(d2' & d3 & Heq & -> & H23)].
  - by left.
  - right. by exists d2', d3.
  - right. by exists d1, d2.
  - injection Heq as <-. right. exists d1, d3. repeat split.
    intros key Hkey. by rewrite H23, H12.
Qed.

Lemma setitem_same_but_flag (l : loc) (v : json) (σ : store) (l' : loc) :
  same_but_flag (σ l') (snd (setitem l "final_eligible" v σ) l').
Proof.
  unfold setitem. destruct (σ l) as [| | | | | |d] eqn:Hl; simpl; try by left.
  destruct (decide (l' = l)) as [->|]; [|by left].
  right. exists d, (<["final_eligible" := v]> d). repeat split; [done|].
  intros key Hkey. by rewrite lookup_insert_ne.
Qed.

Lemma length_lower (s : string) : String.length (Py.lower s) = String.length s.
Proof.
  unfold Py.lower. induction s as [|c s IH]; simpl; [done | by rewrite IH].
Qed.

Lemma length_append (s t : string) :
  String.length (s ++ t) = (String.length s + String.length t)%nat.
Proof. induction s as [|c s IH]; simpl; [done | by rewrite IH]. Qed.

Section Step2Properties.

Variable py_str : json -> string.

Lemma step2_loop_cons (l : loc) (rest : list loc)
    (answers : gmap string string) (σ : store) :
  step2_loop py_str (l :: rest) answers σ
  = match step2_flag py_str answers (σ l) with
    | Ok flag =>
        match setitem l "final_eligible" (JBool flag) σ with
        | (Ok _, σ1) => step2_loop py_str rest answers σ1
        | (Raise e, σ1) => (Raise e, σ1)
        end
    | Raise e => (Raise e, σ)
    end.
Proof.
  simpl. unfold mbind at 1. unfold deref. unfold mbind at 1. unfold lift.
  destruct (step2_flag py_str answers (σ l)); [|done].
  unfold mbind. by destruct (setitem _ _ _ σ) as [[]].
Qed.

Lemma step2_flag_typed (answers : gmap string string) (d : gmap string json) :
  step2_typed (JDict d) = true ->
  step2_flag py_str answers (JDict d) = Ok (final_eligible_of py_str answers d).
Proof.
  unfold step2_typed, step2_flag, final_eligible_of, step2_question_of,
    submitted_answer, expected_answer_of.
  intros [[id Hid]%bool_decide_eq_true Hq]%andb_true_iff. simpl. rewrite Hid.
  destruct (d !! "step2_question") as [v|]; simpl; [|done].
  destruct v as [| | | | | |q]; try done. simpl.
  destruct (bool_decide (size q = 0%nat)) eqn:Hsize; simpl.
  - apply bool_decide_eq_true, map_size_empty_iff in Hsize. subst q.
    by rewrite lookup_empty.
  - destruct (truthy (default JNull (q !! "question"))); simpl; [|done].
    apply andb_true_iff in Hq as [_ Hexp].
    destruct (q !! "expected_answer") as [e|]; simpl; [|done].
    by destruct e.
Qed.

(** The flag is computed from fields that step 2 does not write. *)
Lemma step2_flag_insert (answers : gmap string string)
    (d : gmap string json) (v : json) :
  step2_flag py_str answers (JDict (<["final_eligible" := v]> d))
  = step2_flag py_str answers (JDict d).
Proof.
  unfold step2_flag. simpl. by rewrite !lookup_insert_ne.
Qed.

Lemma step2_loop_typed (answers : gmap string string) (σ0 : store)
    (schemes : list loc) (σ : store) :
  (forall l, σ l = σ0 l \/ σ l = flagged py_str answers (σ0 l)) ->
  Forall (fun l => step2_typed (σ0 l) = true) schemes ->
  exists σ',
    step2_loop py_str schemes answers σ = (Ok tt, σ')
    /\ (forall l, σ' l = σ0 l \/ σ' l = flagged py_str answers (σ0 l))
    /\ (forall l, σ l = flagged py_str answers (σ0 l) -> σ' l = flagged py_str answers (σ0 l))
    /\ (forall l, In l schemes -> σ' l = flagged py_str answers (σ0 l)).
Proof.
  intros Hinv Htyped. revert σ Hinv.
  induction Htyped as [|l rest Hl _ IH]; intros σ Hinv.
  - exists σ. repeat split; [done..|]. by intros l [].
  - rewrite step2_loop_cons.
    destruct (σ0 l) as [| | | | | |d] eqn:Hd; try done.
    assert (step2_flag py_str answers (σ l) = Ok (final_eligible_of py_str answers d)
            /\ exists d1, σ l = JDict d1
                 /\ <["final_eligible" := JBool (final_eligible_of py_str answers d)]> d1
                    = <["final_eligible" := JBool (final_eligible_of py_str answers d)]> d)
      as [Hflag (d1 & Hd1 & Hins)].
    { destruct (Hinv l) as [H|H]; rewrite H, Hd; simpl.
      - split; [by apply step2_flag_typed | by exists d].
      - split; [rewrite step2_flag_insert; by apply step2_flag_typed|].
        eexists. split; [done|]. by rewrite insert_insert_eq. }
    rewrite Hflag. unfold setitem. rewrite Hd1, Hins.
    set (σ1 := fun l' => if decide (l' = l) then _ else σ l').
    assert (σ1 l = flagged py_str answers (σ0 l)) as Hl1.
    { unfold σ1. rewrite decide_True by done. by rewrite Hd. }
    assert (forall l', l' <> l -> σ1 l' = σ l') as Hne.
    { intros l' Hl'. unfold σ1. by rewrite decide_False. }
    destruct (IH σ1) as (σ' & Hrun & Hinv' & Hkeep & Hdone).
    { intros l'. destruct (decide (l' = l)) as [->|Hl']; [by right|].
      rewrite (Hne l' Hl'). apply Hinv. }
    exists σ'. repeat split; [done..| |].
    + intros l' Hl'. apply Hkeep.
      destruct (decide (l' = l)) as [->|Hll]; [done|]. by rewrite (Hne l' Hll).
    + intros l' [<-|Hin]; [by apply Hkeep | by apply Hdone].
Qed.

(** On typed schemes [evaluate_step2] returns its argument, every scheme
    of the list carrying its flag. *)
Lemma evaluate_step2_typed (schemes : list loc)
    (answers : gmap string string) (σ : store) :
  Forall (fun l => step2_typed (σ l) = true) schemes ->
  exists σ',
    evaluate_step2 py_str schemes answers σ = (Ok schemes, σ')
    /\ forall l, In l schemes -> σ' l = flagged py_str answers (σ l).
Proof.
  intros Htyped.
  destruct (step2_loop_typed answers σ schemes σ) as (σ' & Hrun & _ & _ & Hdone);
    [by left | done |].
  exists σ'. split; [|done].
  unfold evaluate_step2, mbind. by rewrite Hrun.
Qed.

(** Whatever the schemes are, the loop writes [final_eligible] only. *)
Lemma step2_loop_frame (schemes : list loc)
    (answers : gmap string string) (σ : store) (l : loc) :
  same_but_flag (σ l) (snd (step2_loop py_str schemes answers σ) l).
Proof.
  revert σ. induction schemes as [|l0 rest IH]; intros σ; [by left|].
  rewrite step2_loop_cons.
  destruct (step2_flag py_str answers (σ l0)) as [flag|e]; [|by left].
  pose proof (setitem_same_but_flag l0 (JBool flag) σ l) as Hset.
  destruct (setitem l0 "final_eligible" (JBool flag) σ) as [[[]|e] σ1];
    simpl in Hset; [|done].
  eapply same_but_flag_trans; [exact Hset | apply IH].
Qed.

(** C2. On typed stage-one schemes and any answers, [evaluate_step2]
    sets [final_eligible] to true on each scheme without a step-2
    question, and on each scheme with one to whether the submitted
    answer, lowercased (empty when missing), equals the expected answer,
    lowercased (empty when missing). *)
Theorem evaluate_step2_flags (schemes : list loc)
    (answers : gmap string string) (σ : store) :
  Forall (fun l => step2_typed (σ l) = true) schemes ->
  exists σ',
    evaluate_step2 py_str schemes answers σ = (Ok schemes, σ')
    /\ forall l, In l schemes ->
         exists d d', σ l = JDict d /\ σ' l = JDict d'
           /\ match step2_question_of d with
              | None => d' !! "final_eligible" = Some (JBool true)
              | Some q =>
                  d' !! "final_eligible"
                  = Some (JBool (bool_decide
                                   (Py.lower (submitted_answer py_str answers d)
                                    = Py.lower (expected_answer_of q))))
              end.
Proof.
  intros Htyped.
  destruct (evaluate_step2_typed schemes answers σ Htyped) as (σ' & Hrun & Hflag).
  exists σ'. split; [done|]. intros l Hin.
  pose proof (proj1 (List.Forall_forall _ _) Htyped l Hin) as Hl. simpl in Hl.
  destruct (σ l) as [| | | | | |d] eqn:Hd; try done.
  exists d, (<["final_eligible" := JBool (final_eligible_of py_str answers d)]> d).
  repeat split.
  - rewrite (Hflag l Hin), Hd. done.
  - rewrite lookup_insert_eq. unfold final_eligible_of.
    by destruct (step2_question_of d).
Qed.

(** C7, amended.  A scheme whose [step2_question] is present with a
    non-empty question text is finally eligible exactly when the submitted
    answer matches the expected one, and some answers leave it not
    eligible; a [step2_question] without question text leaves the scheme
    finally eligible. *)
Theorem step2_question_conditional (schemes : list loc)
    (answers : gmap string string) (σ : store)
    (l : loc) (d q : gmap string json) :
  Forall (fun l => step2_typed (σ l) = true) schemes ->
  In l schemes -> σ l = JDict d -> d !! "step2_question" = Some (JDict q) ->
  exists σ' d',
    evaluate_step2 py_str schemes answers σ = (Ok schemes, σ')
    /\ σ' l = JDict d'
    /\ if truthy (default JNull (q !! "question"))
       then (d' !! "final_eligible" = Some (JBool true)
             <-> Py.lower (submitted_answer py_str answers d)
                 = Py.lower (expected_answer_of q))
            /\ exists answers_no σ'' d'',
                 evaluate_step2 py_str schemes answers_no σ = (Ok schemes, σ'')
                 /\ σ'' l = JDict d''
                 /\ d'' !! "final_eligible" = Some (JBool false)
       else d' !! "final_eligible" = Some (JBool true).
Proof.
  intros Htyped Hin Hd Hq.
  destruct (evaluate_step2_typed schemes answers σ Htyped) as (σ' & Hrun & Hflag).
  exists σ', (<["final_eligible" := JBool (final_eligible_of py_str answers d)]> d).
  split; [done|]. split; [by rewrite (Hflag l Hin), Hd|].
  rewrite lookup_insert_eq.
  assert (forall a, final_eligible_of py_str a d
                    = if truthy (default JNull (q !! "question"))
                      then bool_decide (Py.lower (submitted_answer py_str a d)
                                        = Py.lower (expected_answer_of q))
                      else true) as Hfinal.
  { intros a. unfold final_eligible_of, step2_question_of. rewrite Hq.
    by destruct (truthy (default JNull (q !! "question"))). }
  rewrite Hfinal.
  destruct (truthy (default JNull (q !! "question"))) eqn:Hasks; [|done].
  split.
  - split.
    + intros [= H]. by apply bool_decide_eq_true in H.
    + intros H. by rewrite (bool_decide_eq_true_2 _ H).
  - set (answers_no :=
           ({[ py_str (default JNull (d !! "id")) := expected_answer_of q ++ "x" ]}
            : gmap string string)).
    destruct (evaluate_step2_typed schemes answers_no σ Htyped)
      as (σ'' & Hrun' & Hflag').
    exists answers_no, σ'',
      (<["final_eligible" := JBool (final_eligible_of py_str answers_no d)]> d).
    split; [done|]. split; [by rewrite (Hflag' l Hin), Hd|].
    rewrite lookup_insert_eq, Hfinal. do 2 f_equal.
    apply bool_decide_eq_false. unfold submitted_answer, answers_no.
    rewrite lookup_singleton_eq. simpl. intros Heq.
    apply (f_equal String.length) in Heq.
    rewrite !length_lower, length_append in Heq. simpl in Heq. lia.
Qed.

(** C8. [filter_schemes] leaves the store as it found it, and
    [evaluate_step2] returns the list it was given and changes an object
    in no field but [final_eligible]; both hold for every input, also one
    on which an exception is raised. *)
Theorem only_flag_changes (schemes : list loc)
    (user_input : gmap string (option string))
    (answers : gmap string string) (σ : store) :
  snd (filter_schemes schemes user_input σ) = σ
  /\ match fst (evaluate_step2 py_str schemes answers σ) with
     | Ok out => out = schemes
     | Raise _ => True
     end
  /\ forall l, same_but_flag (σ l) (snd (evaluate_step2 py_str schemes answers σ) l).
Proof.
  repeat apply conj.
  - unfold filter_schemes. destruct (validate_input user_input); [|done..].
    unfold mbind at 1. unfold lift.
    destruct (convert_user user_input) as [u|e]; [|done].
    unfold mbind.
    pose proof (filter_loop_store u schemes [] σ) as Hstore.
    by destruct (filter_loop u schemes [] σ) as [[]].
  - unfold evaluate_step2, mbind.
    by destruct (step2_loop py_str schemes answers σ) as [[]].
  - intros l. pose proof (step2_loop_frame schemes answers σ l) as Hframe.
    unfold evaluate_step2, mbind.
    by destruct (step2_loop py_str schemes answers σ) as [[]].
Qed.

End Step2Properties.

(** * The properties on concrete records *)


Lemma filter_schemes_all_checks_witness :
  exists u filtered,
    convert_user example_form_shouting = Ok u
    /\ u = {| age := 30; caste := "x"; gender := "female"; income := 40000;
              occupation := "z"; location := "w" |}
    /\ filter_schemes [0%nat; 1%nat; 2%nat; 3%nat] example_form_shouting
         example_mixed_store
       = (Ok (Filtered filtered), example_mixed_store)
    /\ filtered = List.filter (fun l => meets_criteria u (example_mixed_store l))
                              [0%nat; 1%nat; 2%nat; 3%nat]
    /\ filtered = [0%nat; 2%nat]
    /\ ~ In 1%nat filtered /\ ~ In 3%nat filtered.
Proof.
  destruct (filter_schemes_all_checks [0%nat; 1%nat; 2%nat; 3%nat]
              example_form_shouting example_mixed_store)
    as (u & filtered & Hu & _ & Hrun & _ & Hspec & _ & Hout).
  - vm_compute. reflexivity.
  - repeat constructor.
  - assert (u = {| age := 30; caste := "x"; gender := "female"; income := 40000;
                   occupation := "z"; location := "w" |}) as Hrecord.
    { assert (convert_user example_form_shouting
              = Ok {| age := 30; caste := "x"; gender := "female"; income := 40000;
                      occupation := "z"; location := "w" |}) as Hc
        by (vm_compute; reflexivity).
      rewrite Hu in Hc. by injection Hc. }
    exists u, filtered. split; [exact Hu|]. split; [exact Hrecord|].
    split; [exact Hrun|]. split; [exact Hspec|]. split.
    + rewrite Hspec, Hrecord. vm_compute. reflexivity.
    + split.
      * apply (Hout 1%nat Gender). rewrite Hrecord. vm_compute. reflexivity.
      * apply (Hout 3%nat Age). rewrite Hrecord. vm_compute. reflexivity.
Defined.

Lemma filter_schemes_propagates_error_witness :
  filter_schemes [0%nat] (example_form "abc" "40000") example_store
  = (Ok (ErrorDict (VMsg "Invalid age value. Please enter a number.")),
     example_store)
  /\ exists filtered,
       filter_schemes [0%nat] (example_form "30" "40000") example_store
       = (Ok (Filtered filtered), example_store).
Proof.
  split.
  - apply (proj1 (filter_schemes_propagates_error [0%nat]
                    (example_form "abc" "40000") example_store)).
    vm_compute. discriminate.
  - apply (proj2 (filter_schemes_propagates_error [0%nat]
                    (example_form "30" "40000") example_store)).
    + vm_compute. reflexivity.
    + repeat constructor.
Defined.

Lemma filter_schemes_total_witness :
  exists r,
    filter_schemes [0%nat; 1%nat; 2%nat; 3%nat] example_form_shouting example_mixed_store
    = (Ok r, example_mixed_store).
Proof.
  apply (filter_schemes_total [0%nat; 1%nat; 2%nat; 3%nat] example_form_shouting
           example_mixed_store).
  repeat constructor.
Defined.

(** C9 as stated fails: the conditions it lists speak of the criteria
    only, and a scheme whose [eligibility] is [null] has none, yet
    [elig.get] raises [AttributeError] on it. *)
Lemma filter_schemes_null_group_raises :
  ~ (forall (schemes : list loc) (user_input : gmap string (option string)) (σ : store),
       Forall (fun l => criteria_typed (criteria_of (σ l)) = true) schemes ->
       exists r, filter_schemes schemes user_input σ = (Ok r, σ)).
Proof.
  intros Hclaim.
  destruct (Hclaim [1%nat] (example_form "30" "40000") example_broken_store)
    as [r Hrun].
  - repeat constructor.
  - apply (f_equal fst) in Hrun. vm_compute in Hrun. discriminate Hrun.
Qed.

Lemma unconstrained_axis_passes_witness :
  axis_excludes Gender example_user
    (JDict (<["gender" := JList [JStr "Male"; JStr "ALL"]]> ∅)) = Ok false
  /\ axis_excludes Occupation example_user
       (JDict (<["occupation" := JList []]> ∅)) = Ok false
  /\ axis_excludes Age example_user (JDict ∅) = Ok false.
Proof.
  split; [|split].
  - apply unconstrained_axis_passes. right. right.
    exists "all", [JStr "Male"; JStr "ALL"], "ALL".
    repeat split; try reflexivity. right. left. reflexivity.
  - apply unconstrained_axis_passes. right. left. reflexivity.
  - apply unconstrained_axis_passes. left. reflexivity.
Defined.

Lemma income_limit_check_witness :
  income_excludes example_user (JDict (<["income_limit" := JInt 50000]> ∅)) = Ok false
  /\ income_excludes example_user (JDict (<["income_limit" := JInt 49999]> ∅)) = Ok true
  /\ exists b,
       income_excludes example_user
         (JDict (<["income_limit" := JList [JInt 50000; JFloat (S754_infinity false)]]> ∅))
       = Ok b
       /\ (b = false <->
           num_le_int (JInt 50000) (income example_user) = Ok true
           /\ int_le_num (income example_user) (JFloat (S754_infinity false)) = Ok true).
Proof.
  split; [|split].
  - apply (proj1 (income_limit_check example_user (<["income_limit" := JInt 50000]> ∅))
             (JInt 50000)); reflexivity.
  - apply (proj1 (income_limit_check example_user (<["income_limit" := JInt 49999]> ∅))
             (JInt 49999)); reflexivity.
  - apply (proj1 (proj2 (income_limit_check example_user
             (<["income_limit" := JList [JInt 50000; JFloat (S754_infinity false)]]> ∅))));
      reflexivity.
Defined.

Lemma income_limit_other_shape_witness :
  income_excludes example_user
    (JDict (<["income_limit" := JList [JInt 1; JInt 2; JInt 3]]> ∅)) = Ok false
  /\ income_excludes example_user
       (JDict (<["income_limit" := JStr "50000"]> ∅)) = Ok false.
Proof.
  split.
  - apply (income_limit_other_shape example_user _ (JList [JInt 1; JInt 2; JInt 3]));
      [reflexivity | reflexivity | discriminate].
  - apply (income_limit_other_shape example_user _ (JStr "50000"));
      [reflexivity | reflexivity | discriminate].
Defined.

Lemma evaluate_step2_flags_witness :
  exists σ',
    evaluate_step2 str_of_id [0%nat; 1%nat] example_answers example_step2_store
    = (Ok [0%nat; 1%nat], σ')
    /\ forall l, In l [0%nat; 1%nat] ->
         exists d d', example_step2_store l = JDict d /\ σ' l = JDict d'
           /\ match step2_question_of d with
              | None => d' !! "final_eligible" = Some (JBool true)
              | Some q =>
                  d' !! "final_eligible"
                  = Some (JBool (bool_decide
                                   (Py.lower (submitted_answer str_of_id example_answers d)
                                    = Py.lower (expected_answer_of q))))
              end.
Proof.
  apply (evaluate_step2_flags str_of_id [0%nat; 1%nat] example_answers
           example_step2_store).
  repeat constructor.
Defined.

Lemma step2_question_conditional_witness :
  exists σ' d',
    evaluate_step2 str_of_id [0%nat; 1%nat] example_answers example_step2_store
    = (Ok [0%nat; 1%nat], σ')
    /\ σ' 0%nat = JDict d'
    /\ if truthy (default JNull (example_question !! "question"))
       then (d' !! "final_eligible" = Some (JBool true)
             <-> Py.lower (submitted_answer str_of_id example_answers
                             example_asking_fields)
                 = Py.lower (expected_answer_of example_question))
            /\ exists answers_no σ'' d'',
                 evaluate_step2 str_of_id [0%nat; 1%nat] answers_no example_step2_store
                 = (Ok [0%nat; 1%nat], σ'')
                 /\ σ'' 0%nat = JDict d''
                 /\ d'' !! "final_eligible" = Some (JBool false)
       else d' !! "final_eligible" = Some (JBool true).
Proof.
  apply (step2_question_conditional str_of_id [0%nat; 1%nat] example_answers
           example_step2_store 0%nat example_asking_fields example_question).
  - repeat constructor.
  - left. reflexivity.
  - reflexivity.
  - reflexivity.
Defined.

(** C7 as stated fails: a [step2_question] that is present but carries no
    question text leaves the scheme finally eligible although the submitted
    answer does not match the expected one. *)
Lemma step2_question_without_text_unconditional :
  ~ (forall (schemes : list loc) (answers : gmap string string) (σ : store)
       (l : loc) (d q : gmap string json),
       Forall (fun l => step2_typed (σ l) = true) schemes ->
       In l schemes -> σ l = JDict d -> d !! "step2_question" = Some (JDict q) ->
       exists σ' d',
         evaluate_step2 str_of_id schemes answers σ = (Ok schemes, σ')
         /\ σ' l = JDict d'
         /\ (d' !! "final_eligible" = Some (JBool true)
             <-> Py.lower (submitted_answer str_of_id answers d)
                 = Py.lower (expected_answer_of q))).
Proof.
  intros Hclaim.
  destruct (Hclaim [0%nat] {[ "1" := "no" ]} (fun _ => JDict example_silent_fields)
              0%nat example_silent_fields example_silent_question)
    as (σ' & d' & Hrun & Hd' & Hiff).
  - repeat constructor.
  - left. reflexivity.
  - reflexivity.
  - reflexivity.
  - destruct (evaluate_step2_typed str_of_id [0%nat] {[ "1" := "no" ]}
                (fun _ => JDict example_silent_fields)) as (σ1 & Hrun1 & Hflag).
    { repeat constructor. }
    rewrite Hrun1 in Hrun. injection Hrun as <-.
    rewrite (Hflag 0%nat) in Hd' by (left; reflexivity).
    simpl in Hd'. injection Hd' as <-.
    destruct Hiff as [Hiff _].
    assert (Py.lower (submitted_answer str_of_id {[ "1" := "no" ]} example_silent_fields)
            = Py.lower (expected_answer_of example_silent_question)) as Heq.
    { apply Hiff. rewrite lookup_insert_eq. reflexivity. }
    vm_compute in Heq. discriminate.
Qed.

(** * Further properties of the code *)

(** ** What [validate_input] accepts *)

(** X1. On a submitted form the body of [validate_input] raises nothing:
    [int()] is applied to non-empty strings only and its [ValueError] is
    handled on the spot, so the outer handler and its message of an
    unexpected error are never reached. *)
Theorem validate_body_never_raises (data : gmap string (option string)) :
  exists v, validate_body data = Ok v /\ validate_input data = v
            /\ match v with VUnexpected _ => False | _ => True end.
Proof.
  unfold validate_input.
  destruct (validate_body data) as [v|e] eqn:Hbody.
  - exists v. repeat split.
    destruct v; [done..|].
    exfalso. apply (validate_input_expected data e). unfold validate_input.
    by rewrite Hbody.
  - exfalso. apply (validate_input_expected data e). unfold validate_input.
    by rewrite Hbody.
Qed.


Lemma check_required_agree (d1 d2 : gmap string (option string)) (fields : list string) :
  (forall k, In k fields -> form_get d1 k = form_get d2 k) ->
  check_required d1 fields = check_required d2 fields.
Proof.
  induction fields as [|f fields IH]; intros Hagree; simpl; [done|].
  rewrite (Hagree f) by (by left).
  destruct (form_not (form_get d2 f)); [done|].
  apply IH. intros k Hk. apply Hagree. by right.
Qed.

Lemma validate_input_agree (d1 d2 : gmap string (option string)) :
  (forall k, In k read_fields -> form_get d1 k = form_get d2 k) ->
  validate_input d1 = validate_input d2.
Proof.
  intros Hagree. unfold validate_input, validate_body.
  rewrite (Hagree "age") by (simpl; tauto).
  rewrite (Hagree "income") by (simpl; tauto).
  rewrite (check_required_agree d1 d2 required_fields); [done|].
  intros k Hk. apply Hagree. simpl in *. tauto.
Qed.

(** ** What [filter_schemes] reads of the form *)

Lemma filter_schemes_agree (schemes : list loc)
    (d1 d2 : gmap string (option string)) (σ : store) :
  (forall k, In k read_fields -> form_get d1 k = form_get d2 k) ->
  filter_schemes schemes d1 σ = filter_schemes schemes d2 σ.
Proof.
  intros Hagree. pose proof (validate_input_agree d1 d2 Hagree) as Hv.
  unfold filter_schemes. rewrite <- Hv.
  destruct (validate_input d1) eqn:Hv1; [|done..].
  symmetry in Hv.
  destruct (convert_user_reading d1 Hv1)
    as (a & i & c & g & o & lo & Ha & Hi & Hc & Hg & Ho & Hlo & ->).
  destruct (convert_user_reading d2 Hv)
    as (a' & i' & c' & g' & o' & lo' & Ha' & Hi' & Hc' & Hg' & Ho' & Hlo' & ->).
  rewrite <- (Hagree "age") in Ha' by (simpl; tauto).
  rewrite <- (Hagree "income") in Hi' by (simpl; tauto).
  rewrite <- (Hagree "caste"), Hc in Hc' by (simpl; tauto).
  rewrite <- (Hagree "gender"), Hg in Hg' by (simpl; tauto).
  rewrite <- (Hagree "occupation"), Ho in Ho' by (simpl; tauto).
  rewrite <- (Hagree "location"), Hlo in Hlo' by (simpl; tauto).
  apply numeric_form_int in Ha, Ha', Hi, Hi'.
  assert (a' = a) as -> by congruence. assert (i' = i) as -> by congruence.
  by simplify_eq.
Qed.

(** X4. The rules read the form through seven fields only: two forms that
    agree on age, income, gender, caste, district, occupation and location
    get the same verdict of [validate_input] and the same result of
    [filter_schemes], error or list, whatever else ([hk_quota], stray
    fields) they hold and whatever the schemes are. *)
Theorem filter_schemes_reads_seven_fields (schemes : list loc)
    (d1 d2 : gmap string (option string)) (σ : store) :
  (forall k, In k read_fields -> form_get d1 k = form_get d2 k) ->
  validate_input d1 = validate_input d2
  /\ filter_schemes schemes d1 σ = filter_schemes schemes d2 σ.
Proof.
  intros Hagree. split.
  - by apply validate_input_agree.
  - by apply filter_schemes_agree.
Qed.

(** X5. Once two forms validate, [filter_schemes] tells them apart only by
    the integers their age and income read as and by their caste, gender,
    occupation and location up to letter case: the district, the case of
    the four fields and the spelling of the numbers do not matter. *)
Theorem filter_schemes_case_insensitive (schemes : list loc)
    (d1 d2 : gmap string (option string)) (σ : store) (a i : Z) :
  validate_input d1 = VTrue -> validate_input d2 = VTrue ->
  numeric (form_get d1 "age") a -> numeric (form_get d2 "age") a ->
  numeric (form_get d1 "income") i -> numeric (form_get d2 "income") i ->
  (forall k, In k matched_fields ->
             Py.lower <$> form_get d1 k = Py.lower <$> form_get d2 k) ->
  filter_schemes schemes d1 σ = filter_schemes schemes d2 σ.
Proof.
  intros Hv1 Hv2 Ha1 Ha2 Hi1 Hi2 Hcase.
  unfold filter_schemes. rewrite Hv1, Hv2.
  destruct (convert_user_reading d1 Hv1)
    as (a1 & i1 & c & g & o & lo & Ha & Hi & Hc & Hg & Ho & Hlo & ->).
  destruct (convert_user_reading d2 Hv2)
    as (a2 & i2 & c' & g' & o' & lo' & Ha' & Hi' & Hc' & Hg' & Ho' & Hlo' & ->).
  apply numeric_form_int in Ha, Ha', Hi, Hi', Ha1, Ha2, Hi1, Hi2.
  assert (a1 = a2) as -> by congruence. assert (i1 = i2) as -> by congruence.
  pose proof (Hcase "caste") as H1. rewrite Hc, Hc' in H1.
  pose proof (Hcase "gender") as H2. rewrite Hg, Hg' in H2.
  pose proof (Hcase "occupation") as H3. rewrite Ho, Ho' in H3.
  pose proof (Hcase "location") as H4. rewrite Hlo, Hlo' in H4.
  simpl in H1, H2, H3, H4.
  injection (H1 ltac:(tauto)) as ->. injection (H2 ltac:(tauto)) as ->.
  injection (H3 ltac:(tauto)) as ->. injection (H4 ltac:(tauto)) as ->.
  reflexivity.
Qed.

Lemma lower_char_idempotent (c : ascii) :
  Py.lower_char (Py.lower_char c) = Py.lower_char c.
Proof. destruct c as [[] [] [] [] [] [] [] []]; reflexivity. Qed.

Lemma lower_idempotent (s : string) : Py.lower (Py.lower s) = Py.lower s.
Proof.
  unfold Py.lower. induction s as [|c s IH]; simpl; [done|].
  by rewrite IH, lower_char_idempotent.
Qed.

Lemma lower_empty (s : string) : Py.lower s = "" <-> s = "".
Proof. unfold Py.lower. destruct s; simpl; split; congruence. Qed.

(** X3. When validation passes, the conversions that [filter_schemes]
    makes before its loop raise nothing, and the loop sees an age in
    [0,150], a non-negative income, and a caste, gender, occupation and
    location that are non-empty and in lower case. *)
Theorem convert_user_after_validation (data : gmap string (option string)) :
  validate_input data = VTrue ->
  exists u, convert_user data = Ok u
    /\ 0 <= age u <= 150 /\ 0 <= income u
    /\ Forall (fun s => s <> "" /\ Py.lower s = s)
              [caste u; gender u; occupation u; location u].
Proof.
  intros Hvalid.
  destruct (convert_user_reading data Hvalid)
    as (a & i & c & g & o & lo & Ha & Hi & Hc & Hg & Ho & Hlo & Hu).
  destruct (validate_input_true data Hvalid) as ((a' & Ha' & Hra) & (i' & Hi' & Hri) & Hreq).
  apply numeric_form_int in Ha, Ha', Hi, Hi'.
  assert (a' = a) as -> by congruence. assert (i' = i) as -> by congruence.
  eexists. split; [exact Hu|]. simpl. repeat split; try lia.
  assert (forall k s, In k required_fields -> form_get data k = Some s ->
                      Py.lower s <> "" /\ Py.lower (Py.lower s) = Py.lower s) as Hfield.
  { intros k s Hk Hs. split; [|apply lower_idempotent].
    rewrite lower_empty. intros ->.
    apply (proj1 (List.Forall_forall _ _) Hreq k Hk). by right. }
  repeat constructor.
  - apply (Hfield "caste" c); [simpl; tauto | done].
  - apply (Hfield "caste" c); [simpl; tauto | done].
  - apply (Hfield "gender" g); [simpl; tauto | done].
  - apply (Hfield "gender" g); [simpl; tauto | done].
  - apply (Hfield "occupation" o); [simpl; tauto | done].
  - apply (Hfield "occupation" o); [simpl; tauto | done].
  - apply (Hfield "location" lo); [simpl; tauto | done].
  - apply (Hfield "location" lo); [simpl; tauto | done].
Qed.

(** ** The age check *)

(** X6. With an age range whose first two elements are integers [lo] and
    [hi], the age check passes exactly for [lo <= age <= hi], both bounds
    included; elements after the second are never read. *)
Theorem age_range_inclusive (u : user) (elig : gmap string json)
    (lo hi : Z) (more : list json) :
  elig !! "age_range" = Some (JList (JInt lo :: JInt hi :: more)) ->
  age_excludes u (JDict elig) = Ok (negb (bool_decide (lo <= age u <= hi))).
Proof.
  intros Hkey. unfold age_excludes, between, num_le_int, int_le_num.
  simpl. rewrite Hkey. simpl.
  destruct (lo ?= age u) eqn:Hlo; simpl;
    destruct (hi ?= age u) eqn:Hhi; simpl; f_equal; symmetry;
    rewrite ?Z.compare_eq_iff, ?Z.compare_lt_iff, ?Z.compare_gt_iff in *;
    rewrite ?negb_true_iff, ?negb_false_iff;
    first [apply bool_decide_eq_true; lia | apply bool_decide_eq_false; lia].
Qed.

(** X7. An age range of one integer [lo] has no upper bound to read: a
    user younger than [lo] is excluded without an error, and for every
    other user the check raises [IndexError]. *)
Theorem age_range_single_bound (u : user) (elig : gmap string json) (lo : Z) :
  elig !! "age_range" = Some (JList [JInt lo]) ->
  age_excludes u (JDict elig)
  = if bool_decide (age u < lo) then Ok true else Raise IndexError.
Proof.
  intros Hkey. unfold age_excludes, between, num_le_int. simpl. rewrite Hkey. simpl.
  destruct (lo ?= age u) eqn:Hlo; simpl;
    rewrite ?Z.compare_eq_iff, ?Z.compare_lt_iff, ?Z.compare_gt_iff in *.
  - by rewrite bool_decide_eq_false_2 by lia.
  - by rewrite bool_decide_eq_false_2 by lia.
  - by rewrite bool_decide_eq_true_2 by lia.
Qed.

(** ** The set checks *)

(** X8. On a list of strings, a set check passes exactly when the list is
    empty, or holds the sentinel of the axis, or holds the user's value,
    the strings of the list being compared in lower case. *)
Theorem set_check_membership (key sentinel value : string)
    (elig : gmap string json) (l : list json) :
  elig !! key = Some (JList l) -> forallb is_string l = true ->
  exists b, set_excludes key sentinel value (JDict elig) = Ok b
    /\ (b = false <->
        l = []
        \/ (exists s, In (JStr s) l /\ Py.lower s = sentinel)
        \/ (exists s, In (JStr s) l /\ Py.lower s = value)).
Proof.
  intros Hkey Hl. unfold set_excludes, lower_each. simpl. rewrite Hkey. simpl.
  destruct (rmap_str_lower_strings l Hl) as [names Hnames]. rewrite Hnames. simpl.
  eexists. split; [done|].
  rewrite <- !(rmap_str_lower_names l names _ Hnames), <- !list_elem_of_In.
  assert (length names = length l) as Hlen.
  { clear -Hnames. revert names Hnames. induction l as [|g l IH]; intros names; simpl.
    - by intros [= <-].
    - destruct (str_lower g); simpl; [|done].
      destruct (rmap str_lower l) as [ns|]; simpl; [|done].
      intros [= <-]. simpl. by rewrite (IH ns). }
  rewrite Hlen. rewrite !andb_false_iff, !negb_false_iff, !bool_decide_eq_true.
  split.
  - intros [[H|H]|H]; [left; by destruct l | right; by left | right; by right].
  - intros [->|[H|H]]; [by left; left | left; by right | by right].
Qed.

Lemma rmap_str_lower_chars (s : string) :
  exists names, rmap str_lower (chars s) = Ok names
    /\ length names = String.length s
    /\ Forall (fun n => String.length n = 1%nat) names.
Proof.
  induction s as [|c s (names & Hnames & Hlen & Hall)]; simpl.
  - exists []. by repeat split.
  - rewrite Hnames. simpl. eexists. split; [done|]. split; [by rewrite <- Hlen|].
    by constructor.
Qed.

(** X9. A set criterion written as a bare string rather than a list (say
    ["all"] for [["all"]]) is read character by character: when it is a
    non-empty ASCII string it excludes every user whose value is not a
    single character, the sentinel not being a single character either. *)
Theorem set_check_bare_string (key sentinel value : string)
    (elig : gmap string json) (s : string) :
  elig !! key = Some (JStr s) -> s <> "" -> Py.is_ascii s = true ->
  String.length sentinel <> 1%nat -> String.length value <> 1%nat ->
  set_excludes key sentinel value (JDict elig) = Ok true.
Proof.
  intros Hkey Hs _ Hsent Hvalue. unfold set_excludes, lower_each. simpl.
  rewrite Hkey. simpl.
  destruct (rmap_str_lower_chars s) as (names & -> & Hlen & Hall). simpl.
  assert (forall n, String.length n <> 1%nat -> n ∉ names) as Hout.
  { intros n Hn Hin. rewrite List.Forall_forall in Hall.
    apply list_elem_of_In in Hin. by apply Hall in Hin. }
  rewrite (bool_decide_eq_false_2 _ (Hout sentinel Hsent)).
  rewrite (bool_decide_eq_false_2 _ (Hout value Hvalue)).
  rewrite bool_decide_eq_false_2; [done|].
  rewrite Hlen. by destruct s.
Qed.

(** ** Whole schemes *)

Lemma unconstrained_not_excluded (a : axis) (u : user) (elig : gmap string json) :
  unconstrained a elig -> axis_excludes a u (JDict elig) = Ok false.
Proof.
  intros [Habsent|[Hempty|(sentinel & l & s & Hsent & Hkey & Hl & Hin & Hs)]];
    destruct a; simpl in *;
    try (by apply set_excludes_absent); try (by apply set_excludes_empty);
    try (unfold age_excludes; simpl; by rewrite ?Habsent, ?Hempty);
    try (unfold income_excludes; simpl; by rewrite ?Habsent, ?Hempty);
    try done; injection Hsent as <-; by apply (set_excludes_sentinel _ _ _ _ l s).
Qed.

Lemma scheme_is_eligible_checks (u : user) (d elig : gmap string json) :
  default (JDict ∅) (d !! "eligibility") = JDict elig ->
  (forall a, axis_excludes a u (JDict elig) = Ok false) ->
  scheme_is_eligible u (JDict d) = Ok true.
Proof.
  intros Helig Hall. unfold scheme_is_eligible. simpl. rewrite Helig.
  pose proof (Hall Age) as H1. pose proof (Hall Gender) as H2.
  pose proof (Hall Caste) as H3. pose proof (Hall Income) as H4.
  pose proof (Hall Occupation) as H5. pose proof (Hall Location) as H6.
  simpl in *. by rewrite H1, H2, H3, H4, H5, H6.
Qed.

(** X10. A scheme without an [eligibility] group, or with a group all of
    whose axes are unconstrained, is eligible for every user. *)
Theorem scheme_without_constraints_eligible (u : user) (d : gmap string json) :
  d !! "eligibility" = None
  \/ (exists elig, d !! "eligibility" = Some (JDict elig)
                   /\ forall a, unconstrained a elig) ->
  scheme_is_eligible u (JDict d) = Ok true.
Proof.
  intros [Hnone|(elig & Hsome & Hall)].
  - apply (scheme_is_eligible_checks u d ∅); [by rewrite Hnone|].
    intros a. apply unconstrained_not_excluded. left. apply lookup_empty.
  - apply (scheme_is_eligible_checks u d elig); [by rewrite Hsome|].
    intros a. by apply unconstrained_not_excluded.
Qed.

Lemma axis_excludes_lookup (a : axis) (u : user) (e1 e2 : gmap string json) :
  e1 !! axis_key a = e2 !! axis_key a ->
  axis_excludes a u (JDict e1) = axis_excludes a u (JDict e2).
Proof.
  destruct a; simpl; intros H;
    unfold age_excludes, set_excludes, income_excludes; simpl; by rewrite H.
Qed.

Lemma axis_key_inj (a b : axis) : axis_key a = axis_key b -> a = b.
Proof. destruct a, b; simpl; intros H; first [reflexivity | discriminate H]. Qed.

(** X11. [null] is not an empty set: a scheme whose criteria are typed but
    for one of gender, caste, occupation or location, which is [null],
    raises [TypeError] for every user, while a [null] age range or income
    limit is no constraint. *)
Theorem null_criterion (a : axis) (u : user) (d elig : gmap string json) :
  d !! "eligibility" = Some (JDict elig) ->
  elig !! axis_key a = Some JNull ->
  criteria_typed (delete (axis_key a) elig) = true ->
  axis_excludes a u (JDict elig)
  = match axis_sentinel a with
    | Some _ => Raise TypeError
    | None => Ok false
    end
  /\ (axis_sentinel a <> None -> scheme_is_eligible u (JDict d) = Raise TypeError).
Proof.
  intros Hd Hnull Htyped.
  assert (forall b, b <> a -> exists r, axis_excludes b u (JDict elig) = Ok r) as Hother.
  { intros b Hb.
    destruct (axis_excludes_typed b u _ Htyped) as [r Hr]. exists r.
    rewrite <- Hr. apply axis_excludes_lookup.
    rewrite lookup_delete_ne; [done|]. intros Heq. apply Hb. by apply axis_key_inj. }
  assert (axis_excludes a u (JDict elig)
          = match axis_sentinel a with
            | Some _ => Raise TypeError
            | None => Ok false
            end) as Ha.
  { destruct a; simpl in *;
      unfold age_excludes, set_excludes, income_excludes; simpl; by rewrite Hnull. }
  split; [done|]. intros Hset.
  unfold scheme_is_eligible. simpl. rewrite Hd. simpl.
  destruct a; simpl in Hset, Ha; try done.
  - destruct (Hother Age) as [r1 H1]; [done|]. simpl in H1. by rewrite H1, Ha.
  - destruct (Hother Age) as [r1 H1]; [done|].
    destruct (Hother Gender) as [r2 H2]; [done|].
    simpl in H1, H2. by rewrite H1, H2, Ha.
  - destruct (Hother Age) as [r1 H1]; [done|].
    destruct (Hother Gender) as [r2 H2]; [done|].
    destruct (Hother Caste) as [r3 H3]; [done|].
    destruct (Hother Income) as [r4 H4]; [done|].
    simpl in H1, H2, H3, H4. by rewrite H1, H2, H3, H4, Ha.
  - destruct (Hother Age) as [r1 H1]; [done|].
    destruct (Hother Gender) as [r2 H2]; [done|].
    destruct (Hother Caste) as [r3 H3]; [done|].
    destruct (Hother Income) as [r4 H4]; [done|].
    destruct (Hother Occupation) as [r5 H5]; [done|].
    simpl in H1, H2, H3, H4, H5. by rewrite H1, H2, H3, H4, H5, Ha.
Qed.

(** ** The loop of [filter_schemes] *)

Lemma filter_loop_typed_prefix (u : user) (before rest filtered : list loc) (σ : store) :
  Forall (fun l => scheme_typed (σ l) = true) before ->
  filter_loop u (before ++ rest) filtered σ
  = filter_loop u rest
      (filtered ++ List.filter (fun l => all_checks_pass u (σ l)) before)%list σ.
Proof.
  intros Htyped. revert filtered.
  induction Htyped as [|l before Hl _ IH]; intros filtered; simpl.
  - by rewrite app_nil_r.
  - unfold mbind at 1. unfold deref. unfold mbind at 1. unfold lift at 1.
    rewrite (scheme_is_eligible_typed u _ Hl). rewrite IH.
    destruct (all_checks_pass u (σ l)); [|done]. by rewrite <- app_assoc.
Qed.

(** X12. [filter_schemes] is all or nothing: when a scheme of the list
    raises, the schemes before it being typed, the call raises that
    exception and returns no list, whatever matched before. *)
Theorem filter_schemes_first_error (before after : list loc) (l : loc)
    (user_input : gmap string (option string)) (σ : store) (u : user) (e : exn) :
  validate_input user_input = VTrue ->
  convert_user user_input = Ok u ->
  Forall (fun l => scheme_typed (σ l) = true) before ->
  scheme_is_eligible u (σ l) = Raise e ->
  filter_schemes (before ++ l :: after) user_input σ = (Raise e, σ).
Proof.
  intros Hvalid Hu Htyped Hraise. unfold filter_schemes. rewrite Hvalid.
  unfold mbind at 1. unfold lift. rewrite Hu.
  unfold mbind. rewrite (filter_loop_typed_prefix u before (l :: after) [] σ Htyped).
  simpl. unfold mbind, deref, lift. by rewrite Hraise.
Qed.

Lemma filter_idempotent {A} (f : A -> bool) (l : list A) :
  List.filter f (List.filter f l) = List.filter f l.
Proof.
  induction l as [|x l IH]; simpl; [done|].
  destruct (f x) eqn:Hx; simpl; [|done]. by rewrite Hx, IH.
Qed.

Lemma Forall_filter_typed (f : loc -> bool) (σ : store) (l : list loc) :
  Forall (fun l => scheme_typed (σ l) = true) l ->
  Forall (fun l => scheme_typed (σ l) = true) (List.filter f l).
Proof.
  rewrite !List.Forall_forall. intros H x [Hx _]%filter_In. by apply H.
Qed.

(** X13. Filtering is idempotent: on a validated form and typed schemes,
    filtering the returned list again returns it unchanged. *)
Theorem filter_schemes_idempotent (schemes : list loc)
    (user_input : gmap string (option string)) (σ : store) :
  validate_input user_input = VTrue ->
  Forall (fun l => scheme_typed (σ l) = true) schemes ->
  exists filtered,
    filter_schemes schemes user_input σ = (Ok (Filtered filtered), σ)
    /\ filter_schemes filtered user_input σ = (Ok (Filtered filtered), σ).
Proof.
  intros Hvalid Htyped.
  destruct (filter_schemes_valid schemes user_input σ Hvalid Htyped) as (u & Hu & Hrun).
  eexists. split; [exact Hrun|].
  destruct (filter_schemes_valid _ user_input σ Hvalid
              (Forall_filter_typed (fun l => all_checks_pass u (σ l)) σ schemes Htyped))
    as (u' & Hu' & Hrun').
  assert (u' = u) as -> by congruence.
  by rewrite Hrun', filter_idempotent.
Qed.

(** X14. Filtering distributes over concatenation: on a validated form and
    typed schemes, the result for [xs ++ ys] is the result for [xs]
    followed by the result for [ys]. *)
Theorem filter_schemes_app (xs ys : list loc)
    (user_input : gmap string (option string)) (σ : store) :
  validate_input user_input = VTrue ->
  Forall (fun l => scheme_typed (σ l) = true) (xs ++ ys) ->
  exists fx fy,
    filter_schemes xs user_input σ = (Ok (Filtered fx), σ)
    /\ filter_schemes ys user_input σ = (Ok (Filtered fy), σ)
    /\ filter_schemes (xs ++ ys) user_input σ = (Ok (Filtered (fx ++ fy)%list), σ).
Proof.
  intros Hvalid Htyped.
  pose proof Htyped as [Hxs Hys]%List.Forall_app.
  destruct (filter_schemes_valid xs user_input σ Hvalid Hxs) as (u & Hu & Hrx).
  destruct (filter_schemes_valid ys user_input σ Hvalid Hys) as (u1 & Hu1 & Hry).
  destruct (filter_schemes_valid _ user_input σ Hvalid Htyped) as (u2 & Hu2 & Hrxy).
  assert (u1 = u) as -> by congruence. assert (u2 = u) as -> by congruence.
  eexists _, _. split; [exact Hrx|]. split; [exact Hry|].
  by rewrite Hrxy, List.filter_app.
Qed.

(** ** More on [evaluate_step2] *)

Section Step2Further.

Variable py_str : json -> string.

Lemma step2_loop_others (schemes : list loc) (answers : gmap string string)
    (σ : store) (l : loc) :
  ~ In l schemes -> snd (step2_loop py_str schemes answers σ) l = σ l.
Proof.
  revert σ. induction schemes as [|l0 rest IH]; intros σ Hout; [done|].
  rewrite step2_loop_cons.
  destruct (step2_flag py_str answers (σ l0)) as [flag|e]; [|done].
  unfold setitem. destruct (σ l0) as [| | | | | |d0]; try done.
  rewrite IH by (intros H; apply Hout; by right).
  rewrite decide_False; [done|]. intros ->. apply Hout. by left.
Qed.

Lemma step2_loop_app (xs ys : list loc) (answers : gmap string string) (σ : store) :
  step2_loop py_str (xs ++ ys) answers σ
  = match step2_loop py_str xs answers σ with
    | (Ok _, σ') => step2_loop py_str ys answers σ'
    | (Raise e, σ') => (Raise e, σ')
    end.
Proof.
  revert σ. induction xs as [|l xs IH]; intros σ; [done|].
  rewrite <- app_comm_cons, !step2_loop_cons.
  destruct (step2_flag py_str answers (σ l)); [|done].
  destruct (setitem l "final_eligible" (JBool a) σ) as [[[]|e] σ1]; [apply IH | done].
Qed.

Lemma final_eligible_of_insert (answers : gmap string string)
    (d : gmap string json) (v : json) :
  final_eligible_of py_str answers (<["final_eligible" := v]> d)
  = final_eligible_of py_str answers d.
Proof.
  unfold final_eligible_of, step2_question_of, submitted_answer.
  by rewrite !lookup_insert_ne.
Qed.

Lemma flagged_typed (answers : gmap string string) (v : json) :
  step2_typed v = true -> step2_typed (flagged py_str answers v) = true.
Proof.
  destruct v as [| | | | | |d]; try done. simpl.
  by rewrite !lookup_insert_ne.
Qed.

Lemma flagged_flagged (a1 a2 : gmap string string) (v : json) :
  flagged py_str a2 (flagged py_str a1 v) = flagged py_str a2 v.
Proof.
  destruct v as [| | | | | |d]; try done. simpl.
  by rewrite final_eligible_of_insert, insert_insert_eq.
Qed.

(** X15. [evaluate_step2] writes to the objects of its list only: every
    other object is afterwards what it was, on every input, also one that
    makes the call raise. *)
Theorem evaluate_step2_others_untouched (schemes : list loc)
    (answers : gmap string string) (σ : store) (l : loc) :
  ~ In l schemes -> snd (evaluate_step2 py_str schemes answers σ) l = σ l.
Proof.
  intros Hout. pose proof (step2_loop_others schemes answers σ l Hout) as Hloop.
  unfold evaluate_step2, mbind.
  by destruct (step2_loop py_str schemes answers σ) as [[]].
Qed.

(** X16. The last answers win: on typed schemes, evaluating with one set
    of answers and then with another leaves every object as evaluating
    with the second set alone does; no earlier flag sticks. *)
Theorem evaluate_step2_last_answers_win (schemes : list loc)
    (a1 a2 : gmap string string) (σ : store) :
  Forall (fun l => step2_typed (σ l) = true) schemes ->
  exists σ1 σ12 σ2,
    evaluate_step2 py_str schemes a1 σ = (Ok schemes, σ1)
    /\ evaluate_step2 py_str schemes a2 σ1 = (Ok schemes, σ12)
    /\ evaluate_step2 py_str schemes a2 σ = (Ok schemes, σ2)
    /\ forall l, σ12 l = σ2 l.
Proof.
  intros Htyped.
  destruct (evaluate_step2_typed py_str schemes a1 σ Htyped) as (σ1 & Hrun1 & Hflag1).
  destruct (evaluate_step2_typed py_str schemes a2 σ Htyped) as (σ2 & Hrun2 & Hflag2).
  assert (Forall (fun l => step2_typed (σ1 l) = true) schemes) as Htyped1.
  { rewrite List.Forall_forall in *. intros l Hl.
    rewrite (Hflag1 l Hl). apply flagged_typed. by apply Htyped. }
  destruct (evaluate_step2_typed py_str schemes a2 σ1 Htyped1) as (σ12 & Hrun12 & Hflag12).
  exists σ1, σ12, σ2. repeat split; [done..|].
  intros l. destruct (in_dec Nat.eq_dec l schemes) as [Hin|Hout].
  - by rewrite (Hflag12 l Hin), (Hflag1 l Hin), (Hflag2 l Hin), flagged_flagged.
  - assert (forall a s s', evaluate_step2 py_str schemes a s = (Ok schemes, s') ->
                         s' l = s l) as Hsame.
    { intros a s s' Hrun. pose proof (step2_loop_others schemes a s l Hout) as Hloop.
      unfold evaluate_step2, mbind in Hrun.
      destruct (step2_loop py_str schemes a s) as [[[]|e] s'']; [|done].
      injection Hrun as <-. done. }
    by rewrite (Hsame _ _ _ Hrun12), (Hsame _ _ _ Hrun1), (Hsame _ _ _ Hrun2).
Qed.

(** X17. [evaluate_step2] is not atomic: when a scheme of the list makes
    it raise, the schemes before it being typed, the exception leaves the
    earlier schemes flagged and every other object as it was. *)
Theorem evaluate_step2_partial_failure (before after : list loc) (l : loc)
    (answers : gmap string string) (σ : store) (e : exn) :
  Forall (fun l => step2_typed (σ l) = true) before ->
  step2_flag py_str answers (σ l) = Raise e ->
  exists σ',
    evaluate_step2 py_str (before ++ l :: after) answers σ = (Raise e, σ')
    /\ (forall l', In l' before -> σ' l' = flagged py_str answers (σ l'))
    /\ (forall l', ~ In l' before -> σ' l' = σ l').
Proof.
  intros Htyped Hraise.
  assert (~ In l before) as Hl.
  { intros Hin. rewrite List.Forall_forall in Htyped. specialize (Htyped l Hin).
    simpl in Htyped. destruct (σ l) as [| | | | | |d]; try done.
    by rewrite (step2_flag_typed py_str answers d Htyped) in Hraise. }
  destruct (step2_loop_typed py_str answers σ before σ) as (σ' & Hrun & _ & _ & Hdone);
    [by left | done |].
  assert (forall l', ~ In l' before -> σ' l' = σ l') as Hrest.
  { intros l' Hout. pose proof (step2_loop_others before answers σ l' Hout) as H.
    by rewrite Hrun in H. }
  exists σ'. split; [|by split].
  unfold evaluate_step2, mbind. rewrite step2_loop_app, Hrun, step2_loop_cons.
  by rewrite (Hrest l Hl), Hraise.
Qed.

(** X18. A question left unanswered fails the scheme unless its expected
    answer is empty: on typed schemes, a scheme with a question and no
    answer under its identifier is flagged eligible exactly when the
    expected answer is the empty string. *)
Theorem evaluate_step2_unanswered (schemes : list loc)
    (answers : gmap string string) (σ : store)
    (l : loc) (d q : gmap string json) :
  Forall (fun l => step2_typed (σ l) = true) schemes ->
  In l schemes -> σ l = JDict d -> step2_question_of d = Some q ->
  answers !! py_str (default JNull (d !! "id")) = None ->
  exists σ' d',
    evaluate_step2 py_str schemes answers σ = (Ok schemes, σ')
    /\ σ' l = JDict d'
    /\ d' !! "final_eligible"
       = Some (JBool (bool_decide (expected_answer_of q = ""))).
Proof.
  intros Htyped Hin Hd Hq Hnone.
  destruct (evaluate_step2_typed py_str schemes answers σ Htyped) as (σ' & Hrun & Hflag).
  exists σ', (<["final_eligible" := JBool (final_eligible_of py_str answers d)]> d).
  split; [done|]. split; [by rewrite (Hflag l Hin), Hd|].
  rewrite lookup_insert_eq. do 2 f_equal.
  unfold final_eligible_of, submitted_answer. rewrite Hq, Hnone. simpl.
  apply bool_decide_ext.
  split; [|by intros ->].
  intros H. apply lower_empty. rewrite <- H. reflexivity.
Qed.

End Step2Further.

(** ** The handlers of [app.py] *)

Lemma collect_user_input_get (form : gmap string string) (k : string) :
  In k read_fields -> form_get (collect_user_input form) k = form !! k.
Proof.
  unfold form_get, collect_user_input. simpl.
  intros [<-|[<-|[<-|[<-|[<-|[<-|[<-|[]]]]]]]];
    repeat (rewrite lookup_insert_ne by done); by rewrite lookup_insert_eq.
Qed.

Lemma collect_step2_answers_lookup (form : gmap string string) (k : string) :
  collect_step2_answers form !! k = if Py.isdigit k then form !! k else None.
Proof.
  unfold collect_step2_answers. destruct (Py.isdigit k) eqn:Hk.
  - destruct (form !! k) as [v|] eqn:Hv.
    + by apply map_lookup_filter_Some.
    + apply map_lookup_filter_None. by left.
  - apply map_lookup_filter_None. right. intros v _. simpl. by rewrite Hk.
Qed.

Lemma final_display_flags (f : loc -> bool) (schemes : list loc) (σ : store) :
  (forall l, In l schemes ->
             exists d, σ l = JDict d /\ d !! "final_eligible" = Some (JBool (f l))) ->
  final_display schemes σ = (Ok (List.filter f schemes), σ).
Proof.
  induction schemes as [|l rest IH]; intros Hflags; [done|].
  simpl. unfold mbind at 1. unfold deref. unfold mbind at 1. unfold lift.
  destruct (Hflags l) as (d & Hd & Hfe); [by left|].
  rewrite Hd. simpl. rewrite Hfe. simpl.
  unfold mbind. rewrite IH by (intros l' Hl'; apply Hflags; by right).
  unfold mret. by destruct (f l).
Qed.

(** X22. On typed schemes [results] never answers with an error page and
    leaves the scheme objects alone: it shows the form again with the
    message of [validate_input] when the submitted fields do not validate,
    and otherwise the schemes passing all six checks, in order, with
    [show_final] off. *)
Theorem results_typed (all_schemes : list loc) (form : gmap string string) (σ : store) :
  Forall (fun l => scheme_typed (σ l) = true) all_schemes ->
  exists r, results all_schemes form σ = (r, σ)
    /\ match validate_input (collect_user_input form) with
       | VTrue =>
           exists u, convert_user (collect_user_input form) = Ok u
             /\ r = ResultsPage
                      (List.filter (fun l => all_checks_pass u (σ l)) all_schemes) false
       | error => r = FormPage error
       end.
Proof.
  intros Htyped. unfold results. cbv zeta.
  destruct (validate_input (collect_user_input form)) eqn:Hv.
  - destruct (filter_schemes_valid all_schemes _ σ Hv Htyped) as (u & Hu & ->).
    eexists. split; [done|]. by exists u.
  - rewrite filter_schemes_invalid by (by rewrite Hv). rewrite Hv. by eexists.
  - rewrite filter_schemes_invalid by (by rewrite Hv). rewrite Hv. by eexists.
Qed.

(** X23. [results] answers from eight submitted fields only: two forms
    that agree on [language] and on age, income, gender, caste, district,
    occupation and location get the same page in the same language;
    [hk_quota], though collected, and any other field change nothing. *)
Theorem results_reads_form_fields (supported : string -> bool)
    (all_schemes : list loc) (f1 f2 : gmap string string) (σ : store) :
  (forall k, In k read_fields -> f1 !! k = f2 !! k) ->
  f1 !! "language" = f2 !! "language" ->
  page_language supported f1 = page_language supported f2
  /\ results all_schemes f1 σ = results all_schemes f2 σ.
Proof.
  intros Hagree Hlang. split.
  - unfold page_language. by rewrite Hlang.
  - unfold results. cbv zeta.
    rewrite (filter_schemes_agree all_schemes
               (collect_user_input f1) (collect_user_input f2) σ); [done|].
    intros k Hk. rewrite !collect_user_input_get by done. by apply Hagree.
Qed.

Section FinalizeProperties.

Variable py_str : json -> string.

(** X21. The answer that [finalize] submits for a scheme is the form field
    named by the scheme's identifier when that name is a digit string, and
    the empty answer otherwise. *)
Theorem finalize_submitted_answer (form : gmap string string) (d : gmap string json) :
  submitted_answer py_str (collect_step2_answers form) d
  = if Py.isdigit (py_str (default JNull (d !! "id")))
    then default "" (form !! py_str (default JNull (d !! "id")))
    else "".
Proof.
  unfold submitted_answer. rewrite collect_step2_answers_lookup.
  by destruct (Py.isdigit _).
Qed.

Lemma finalize_run (matched_schemes : list loc) (form : gmap string string) (σ : store) :
  matched_schemes <> [] ->
  Forall (fun l => step2_typed (σ l) = true) matched_schemes ->
  exists σ',
    finalize py_str matched_schemes form σ
    = (ResultsPage
         (List.filter
            (fun l => finally_eligible py_str (collect_step2_answers form) (σ l))
            matched_schemes) true, σ')
    /\ forall l, In l matched_schemes ->
                 σ' l = flagged py_str (collect_step2_answers form) (σ l).
Proof.
  intros Hne Htyped.
  destruct (evaluate_step2_typed py_str matched_schemes (collect_step2_answers form)
              σ Htyped) as (σ' & Hrun & Hflag).
  exists σ'. split; [|done].
  unfold finalize. rewrite bool_decide_eq_false_2 by done. cbv zeta.
  unfold mbind at 1. rewrite Hrun.
  rewrite (final_display_flags
             (fun l => finally_eligible py_str (collect_step2_answers form) (σ l)));
    [done|].
  intros l Hl. rewrite (Hflag l Hl).
  rewrite List.Forall_forall in Htyped. specialize (Htyped l Hl). simpl in Htyped.
  destruct (σ l) as [| | | | | |d]; try done.
  eexists. split; [done|]. by rewrite lookup_insert_eq.
Qed.

(** X19. On a non-empty list of typed schemes [finalize] shows, in order
    and with [show_final] on, exactly the schemes that step 2 finds
    eligible under the digit-named fields of the form, and leaves every
    scheme of the list flagged. *)
Theorem finalize_shows_eligible (matched_schemes : list loc)
    (form : gmap string string) (σ : store) :
  matched_schemes <> [] ->
  Forall (fun l => step2_typed (σ l) = true) matched_schemes ->
  exists shown σ',
    finalize py_str matched_schemes form σ = (ResultsPage shown true, σ')
    /\ shown = List.filter
                 (fun l => finally_eligible py_str (collect_step2_answers form) (σ l))
                 matched_schemes
    /\ forall l, In l matched_schemes ->
                 σ' l = flagged py_str (collect_step2_answers form) (σ l).
Proof.
  intros Hne Htyped.
  destruct (finalize_run matched_schemes form σ Hne Htyped) as (σ' & Hrun & Hflag).
  by eexists _, σ'.
Qed.

(** X20. Answers reach step 2 only under digit names: a scheme with a
    question and a non-empty expected answer whose identifier does not
    render as a digit string is never shown by [finalize], whatever the
    form submits. *)
Theorem finalize_non_digit_id (matched_schemes : list loc)
    (form : gmap string string) (σ : store)
    (l : loc) (d q : gmap string json) :
  Forall (fun l => step2_typed (σ l) = true) matched_schemes ->
  In l matched_schemes -> σ l = JDict d -> step2_question_of d = Some q ->
  Py.isdigit (py_str (default JNull (d !! "id"))) = false ->
  expected_answer_of q <> "" ->
  exists shown σ',
    finalize py_str matched_schemes form σ = (ResultsPage shown true, σ')
    /\ ~ In l shown.
Proof.
  intros Htyped Hin Hd Hq Hid Hexp.
  assert (matched_schemes <> []) as Hne by (by destruct matched_schemes).
  destruct (finalize_run matched_schemes form σ Hne Htyped) as (σ' & Hrun & _).
  eexists _, σ'. split; [exact Hrun|].
  intros [_ Hshown]%filter_In. rewrite Hd in Hshown. simpl in Hshown.
  unfold final_eligible_of in Hshown. rewrite Hq in Hshown.
  apply bool_decide_eq_true in Hshown.
  unfold submitted_answer in Hshown.
  rewrite collect_step2_answers_lookup, Hid in Hshown. simpl in Hshown.
  apply Hexp, lower_empty. by rewrite <- Hshown.
Qed.

End FinalizeProperties.

(** * The further properties on concrete records *)


Lemma convert_user_after_validation_witness :
  exists u, convert_user example_form_shouting = Ok u
    /\ 0 <= age u <= 150 /\ 0 <= income u
    /\ Forall (fun s => s <> "" /\ Py.lower s = s)
              [caste u; gender u; occupation u; location u].
Proof.
  apply (convert_user_after_validation example_form_shouting).
  vm_compute. reflexivity.
Defined.

Lemma filter_schemes_reads_seven_fields_witness :
  validate_input (example_form "30" "40000")
  = validate_input (<["hk_quota" := Some "yes"]> (example_form "30" "40000"))
  /\ filter_schemes [0%nat] (example_form "30" "40000") example_store
     = filter_schemes [0%nat] (<["hk_quota" := Some "yes"]> (example_form "30" "40000"))
         example_store.
Proof.
  apply (filter_schemes_reads_seven_fields [0%nat] (example_form "30" "40000")
           (<["hk_quota" := Some "yes"]> (example_form "30" "40000")) example_store).
  intros k Hk. simpl in Hk.
  repeat (destruct Hk as [<-|Hk]; [reflexivity|]). destruct Hk.
Defined.

Lemma filter_schemes_case_insensitive_witness :
  filter_schemes [0%nat; 1%nat] (example_form "30" "40000") example_store
  = filter_schemes [0%nat; 1%nat] example_form_shouting example_store.
Proof.
  apply (filter_schemes_case_insensitive [0%nat; 1%nat] (example_form "30" "40000")
           example_form_shouting example_store 30 40000).
  - vm_compute. reflexivity.
  - vm_compute. reflexivity.
  - exists "30". split; reflexivity.
  - exists " 30". split; reflexivity.
  - exists "40000". split; reflexivity.
  - exists "40_000". split; reflexivity.
  - intros k Hk. simpl in Hk.
    repeat (destruct Hk as [<-|Hk]; [reflexivity|]). destruct Hk.
Defined.

Lemma age_range_inclusive_witness :
  age_excludes example_user
    (JDict (<["age_range" := JList [JInt 30; JInt 60; JStr "years"]]> ∅))
  = Ok (negb (bool_decide (30 <= age example_user <= 60))).
Proof.
  apply (age_range_inclusive example_user _ 30 60 [JStr "years"]). reflexivity.
Defined.

Lemma age_range_single_bound_witness :
  age_excludes example_user (JDict (<["age_range" := JList [JInt 18]]> ∅))
  = if bool_decide (age example_user < 18) then Ok true else Raise IndexError.
Proof.
  apply (age_range_single_bound example_user _ 18). reflexivity.
Defined.

Lemma set_check_membership_witness :
  exists b,
    set_excludes "caste" "all" "obc"
      (JDict (<["caste" := JList [JStr "SC"; JStr "OBC"]]> ∅)) = Ok b
    /\ (b = false <->
        [JStr "SC"; JStr "OBC"] = []
        \/ (exists s, In (JStr s) [JStr "SC"; JStr "OBC"] /\ Py.lower s = "all")
        \/ (exists s, In (JStr s) [JStr "SC"; JStr "OBC"] /\ Py.lower s = "obc")).
Proof.
  apply (set_check_membership "caste" "all" "obc"
           (<["caste" := JList [JStr "SC"; JStr "OBC"]]> ∅)); reflexivity.
Defined.

Lemma set_check_bare_string_witness :
  set_excludes "gender" "all" "female" (JDict (<["gender" := JStr "all"]> ∅)) = Ok true.
Proof.
  apply (set_check_bare_string "gender" "all" "female" _ "all");
    [reflexivity | discriminate | reflexivity | simpl; lia | simpl; lia].
Defined.

Lemma scheme_without_constraints_eligible_witness :
  scheme_is_eligible example_user (JDict (<["id" := JInt 3]> ∅)) = Ok true.
Proof.
  apply scheme_without_constraints_eligible. left. reflexivity.
Defined.

Lemma null_criterion_witness :
  axis_excludes Gender example_user
    (JDict (<["gender" := JNull]> (<["age_range" := JList [JInt 18; JInt 60]]> ∅)))
  = Raise TypeError
  /\ (axis_sentinel Gender <> None ->
      scheme_is_eligible example_user
        (JDict (<["eligibility" :=
                    JDict (<["gender" := JNull]>
                           (<["age_range" := JList [JInt 18; JInt 60]]> ∅))]> ∅))
      = Raise TypeError).
Proof.
  apply (null_criterion Gender example_user
           (<["eligibility" :=
                JDict (<["gender" := JNull]>
                       (<["age_range" := JList [JInt 18; JInt 60]]> ∅))]> ∅)
           (<["gender" := JNull]> (<["age_range" := JList [JInt 18; JInt 60]]> ∅)));
    reflexivity.
Defined.

Lemma filter_schemes_first_error_witness :
  filter_schemes ([0%nat] ++ 1%nat :: [2%nat]) (example_form "30" "40000")
    example_broken_store
  = (Raise AttributeError, example_broken_store).
Proof.
  apply (filter_schemes_first_error [0%nat] [2%nat] 1%nat (example_form "30" "40000")
           example_broken_store
           {| age := 30; caste := "x"; gender := "female"; income := 40000;
              occupation := "z"; location := "w" |} AttributeError).
  - vm_compute. reflexivity.
  - vm_compute. reflexivity.
  - repeat constructor.
  - reflexivity.
Defined.

Lemma filter_schemes_idempotent_witness :
  exists filtered,
    filter_schemes [0%nat; 1%nat] (example_form "30" "40000") example_store
    = (Ok (Filtered filtered), example_store)
    /\ filter_schemes filtered (example_form "30" "40000") example_store
       = (Ok (Filtered filtered), example_store).
Proof.
  apply (filter_schemes_idempotent [0%nat; 1%nat] (example_form "30" "40000")
           example_store).
  - vm_compute. reflexivity.
  - repeat constructor.
Defined.

Lemma filter_schemes_app_witness :
  exists fx fy,
    filter_schemes [0%nat] (example_form "30" "40000") example_store
    = (Ok (Filtered fx), example_store)
    /\ filter_schemes [1%nat; 2%nat] (example_form "30" "40000") example_store
       = (Ok (Filtered fy), example_store)
    /\ filter_schemes ([0%nat] ++ [1%nat; 2%nat]) (example_form "30" "40000")
         example_store
       = (Ok (Filtered (fx ++ fy)%list), example_store).
Proof.
  apply (filter_schemes_app [0%nat] [1%nat; 2%nat] (example_form "30" "40000")
           example_store).
  - vm_compute. reflexivity.
  - repeat constructor.
Defined.

Lemma evaluate_step2_others_untouched_witness :
  snd (evaluate_step2 str_of_id [0%nat] example_answers example_step2_store) 1%nat
  = example_step2_store 1%nat.
Proof.
  apply (evaluate_step2_others_untouched str_of_id [0%nat] example_answers
           example_step2_store 1%nat).
  intros [H|[]]. discriminate H.
Defined.

Lemma evaluate_step2_last_answers_win_witness :
  exists σ1 σ12 σ2,
    evaluate_step2 str_of_id [0%nat; 1%nat] ∅ example_step2_store
    = (Ok [0%nat; 1%nat], σ1)
    /\ evaluate_step2 str_of_id [0%nat; 1%nat] example_answers σ1
       = (Ok [0%nat; 1%nat], σ12)
    /\ evaluate_step2 str_of_id [0%nat; 1%nat] example_answers example_step2_store
       = (Ok [0%nat; 1%nat], σ2)
    /\ forall l, σ12 l = σ2 l.
Proof.
  apply (evaluate_step2_last_answers_win str_of_id [0%nat; 1%nat] ∅ example_answers
           example_step2_store).
  repeat constructor.
Defined.

Lemma evaluate_step2_partial_failure_witness :
  exists σ',
    evaluate_step2 str_of_id ([0%nat] ++ 1%nat :: [2%nat]) example_answers
      example_step2_broken_store
    = (Raise KeyError, σ')
    /\ (forall l', In l' [0%nat] ->
                   σ' l' = flagged str_of_id example_answers
                             (example_step2_broken_store l'))
    /\ (forall l', ~ In l' [0%nat] -> σ' l' = example_step2_broken_store l').
Proof.
  apply (evaluate_step2_partial_failure str_of_id [0%nat] [2%nat] 1%nat example_answers
           example_step2_broken_store KeyError).
  - repeat constructor.
  - reflexivity.
Defined.

Lemma evaluate_step2_unanswered_witness :
  exists σ' d',
    evaluate_step2 str_of_id [0%nat; 1%nat] ∅ example_step2_store
    = (Ok [0%nat; 1%nat], σ')
    /\ σ' 0%nat = JDict d'
    /\ d' !! "final_eligible"
       = Some (JBool (bool_decide (expected_answer_of example_question = ""))).
Proof.
  apply (evaluate_step2_unanswered str_of_id [0%nat; 1%nat] ∅ example_step2_store
           0%nat example_asking_fields example_question).
  - repeat constructor.
  - left. reflexivity.
  - reflexivity.
  - reflexivity.
  - reflexivity.
Defined.

Lemma finalize_shows_eligible_witness :
  exists shown σ',
    finalize str_of_id [0%nat; 1%nat] {[ "7" := "yes" ]} example_step2_store
    = (ResultsPage shown true, σ')
    /\ shown = List.filter
                 (fun l => finally_eligible str_of_id
                             (collect_step2_answers {[ "7" := "yes" ]})
                             (example_step2_store l))
                 [0%nat; 1%nat]
    /\ forall l, In l [0%nat; 1%nat] ->
                 σ' l = flagged str_of_id (collect_step2_answers {[ "7" := "yes" ]})
                          (example_step2_store l).
Proof.
  apply (finalize_shows_eligible str_of_id [0%nat; 1%nat] {[ "7" := "yes" ]}
           example_step2_store).
  - discriminate.
  - repeat constructor.
Defined.

Lemma finalize_non_digit_id_witness :
  exists shown σ',
    finalize str_of_id [0%nat] {[ "pm-kisan" := "yes" ]}
      (fun _ => JDict example_named_fields)
    = (ResultsPage shown true, σ')
    /\ ~ In 0%nat shown.
Proof.
  apply (finalize_non_digit_id str_of_id [0%nat] {[ "pm-kisan" := "yes" ]}
           (fun _ => JDict example_named_fields) 0%nat example_named_fields
           example_question).
  - repeat constructor.
  - left. reflexivity.
  - reflexivity.
  - reflexivity.
  - reflexivity.
  - discriminate.
Defined.

Lemma results_typed_witness :
  exists r, results [0%nat; 1%nat] example_submission example_store = (r, example_store)
    /\ match validate_input (collect_user_input example_submission) with
       | VTrue =>
           exists u, convert_user (collect_user_input example_submission) = Ok u
             /\ r = ResultsPage
                      (List.filter (fun l => all_checks_pass u (example_store l))
                                   [0%nat; 1%nat]) false
       | error => r = FormPage error
       end.
Proof.
  apply (results_typed [0%nat; 1%nat] example_submission example_store).
  repeat constructor.
Defined.

Lemma results_reads_form_fields_witness :
  page_language (fun lang => bool_decide (lang = "en") || bool_decide (lang = "kn"))
    example_submission
  = page_language (fun lang => bool_decide (lang = "en") || bool_decide (lang = "kn"))
      (<["hk_quota" := "yes"]> example_submission)
  /\ results [0%nat; 1%nat] example_submission example_mixed_store
     = results [0%nat; 1%nat] (<["hk_quota" := "yes"]> example_submission)
         example_mixed_store.
Proof.
  apply (results_reads_form_fields
           (fun lang => bool_decide (lang = "en") || bool_decide (lang = "kn"))
           [0%nat; 1%nat] example_submission
           (<["hk_quota" := "yes"]> example_submission) example_mixed_store).
  - intros k Hk. simpl in Hk.
    repeat (destruct Hk as [<-|Hk]; [reflexivity|]). destruct Hk.
  - reflexivity.
Defined.
